(** * deacsm: the background worker (src/worker.py)

    A shallow embedding of [WorkerThread] and its three workflows
    ([_login_adobe], [_fulfill_acsm], [_decrypt_epub]).  Python's effects are
    made explicit: a workflow is a function from the state of the file
    system to a result (a value or a raised exception), the new state and
    the list of things it did (signals emitted, collaborators called, file
    operations), each stamped with the working directory at that moment. *)

From Stdlib Require Import Strings.Byte Strings.Ascii.
From stdpp Require Import base strings list gmap pretty.

Local Open Scope Z_scope.

(** ** Results and exceptions *)

(** A Python call either returns a value or raises; [Raise e] carries
    [str(e)].  Only [Exception]s are modelled (what [except Exception] and a
    bare [except] both catch). *)
Inductive res (A : Type) : Type :=
| Ret (a : A)
| Raise (e : string).
Arguments Ret {A} a.
Arguments Raise {A} e.

(** ** XML elements (lxml.etree) *)

#[warnings="-register-all"]
Inductive element : Type :=
| Element (etag : string) (etext : option string) (echildren : list element).

Definition tag (e : element) : string := let 'Element t _ _ := e in t.
Definition text (e : element) : option string := let 'Element _ x _ := e in x.
Definition children (e : element) : list element := let 'Element _ _ c := e in c.

(** One step of an ElementPath: the children, in document order, of every
    element of the context that carry the tag. *)
Definition select_child (t : string) (ctx : list element) : list element :=
  e ← ctx; filter (λ c, tag c = t) (children e).

(** [iterfind "./t1/t2/.../tn"], the path given by its tags. *)
Definition iterfind (path : list string) (e : element) : list element :=
  foldl (λ ctx t, select_child t ctx) [e] path.

(** [e.find(path)]: the first match, [None] when there is none. *)
Definition find (path : list string) (e : element) : option element :=
  head (iterfind path e).

(** [adNS = lambda tag: '{%s}%s' % ('http://ns.adobe.com/adept', tag)] *)
Definition adNS (t : string) : string := "{http://ns.adobe.com/adept}" +:+ t.
(** [adDC = lambda tag: '{%s}%s' % ('http://purl.org/dc/elements/1.1/', tag)] *)
Definition adDC (t : string) : string := "{http://purl.org/dc/elements/1.1/}" +:+ t.

(** ** Files and the file system *)

(** A ZIP member: its name and its bytes. *)
Definition member : Type := string * list byte.

(** A file, as [open] and [zipfile] see it: bytes at the front that belong
    to no archive, then (when there is one) a ZIP archive given by its
    members in directory order.  Duplicated names are possible, so the
    members are a list. *)
Record file : Type := File {
  leading : list byte;
  archive : option (list member)
}.

Definition zip_members (f : file) : list member := default [] (archive f).

Record fsys : Type := Fsys {
  cwd : string;
  dirs : gset string;
  files : gmap string file
}.

Definition is_absolute (p : string) : bool :=
  match p with
  | String "/"%char _ => true
  | _ => false
  end.

(** A relative path is looked up from the working directory. *)
Definition resolve (d p : string) : string :=
  if is_absolute p then p else d +:+ "/" +:+ p.

(** What is in front of the last "/" of a path, [None] when it holds no
    "/": the directory the name is looked up in.  Paths are compared as
    they are written. *)
Fixpoint dirname (p : string) : option string :=
  match p with
  | EmptyString => None
  | String c p' =>
      match dirname p' with
      | Some d => Some (String c d)
      | None => if Ascii.eqb c "/" then Some EmptyString else None
      end
  end.

(** ** What a workflow does: the trace *)

Inductive call : Type :=
| c_update_account_path (folder : string)
| c_createDeviceKeyFile
| c_createDeviceFile (randomSerial : bool) (version : Z)
| c_createUser (version : Z)
| c_signIn (method email password : string)
| c_activateDevice (version : Z)
| c_exportAccountEncryptionKeyDER (filename : string)
| c_fulfill (acsm : string)
| c_buildRights (license_token_node : option element)
| c_sendHTTPRequest_DL2FILE (url : option string) (dst : string)
| c_patch_drm_into_pdf (src : string) (found : option file) (rights dst : string)
    (resource : option string)
| c_decryptBook (userkey : list byte) (src dst : string).

Inductive fsop : Type :=
| op_mkdir (p : string)
| op_getcwd
| op_chdir (p : string)
| op_read (p : string) (n : option nat)
| op_move (src dst : string)
| op_zip_writestr (zip name : string)
| op_rename (src dst : string)
| op_remove (p : string).

Inductive event : Type :=
| Progress (msg : string)
| Finished (ok : bool) (msg : string)
| Call (c : call)
| FsOp (o : fsop).

(** The working directory when the event happened, and the event. *)
Definition trace : Type := list (string * event).

(** ** The workflow monad *)

Definition M (A : Type) : Type := fsys → res A * fsys * trace.

Definition ret_M {A} (a : A) : M A := λ s, (Ret a, s, []).

Definition bind_M {A B} (f : A → M B) (m : M A) : M B := λ s,
  match m s with
  | (Ret a, s1, t1) =>
      match f a s1 with
      | (r, s2, t2) => (r, s2, t1 ++ t2)
      end
  | (Raise e, s1, t1) => (Raise e, s1, t1)
  end.

#[global] Instance M_ret : MRet M := @ret_M.
#[global] Instance M_bind : MBind M := @bind_M.
#[global] Instance M_fmap : FMap M := λ A B f m, x ← m; mret (f x).

(** [raise Exception(e)] *)
Definition raise {A} (e : string) : M A := λ s, (Raise e, s, []).

(** [try: m  except Exception as e: h e] *)
Definition try_except {A} (m : M A) (h : string → M A) : M A := λ s,
  match m s with
  | (Ret a, s1, t1) => (Ret a, s1, t1)
  | (Raise e, s1, t1) =>
      match h e s1 with
      | (r, s2, t2) => (r, s2, t1 ++ t2)
      end
  end.

(** [try: m  finally: fin].  The finaliser runs however [m] ends; when it
    raises, its exception replaces the outcome of [m]. *)
Definition try_finally {A} (m : M A) (fin : M unit) : M A := λ s,
  match m s with
  | (r, s1, t1) =>
      match fin s1 with
      | (Ret _, s2, t2) => (r, s2, t1 ++ t2)
      | (Raise e, s2, t2) => (Raise e, s2, t1 ++ t2)
      end
  end.

Definition emit (ev : event) : M unit := λ s, (Ret tt, s, [(cwd s, ev)]).

(** ** Collaborators

    The libraries the worker calls are not part of it.  A call is given by
    what it answers (a value or an exception) and the files it writes,
    relative paths being taken from the working directory of the call.
    A workflow calls each collaborator at most once, so an answer per
    argument list describes any run.  Collaborators do not delete files and
    do not change directory. *)

Definition writes : Type := list (string * file).
Definition answer (A : Type) : Type := (res A * writes)%type.

Definition apply_writes (d : string) (wr : writes) (m : gmap string file)
  : gmap string file :=
  foldl (λ acc pf, <[resolve d pf.1 := pf.2]> acc) m wr.

Definition invoke {A} (c : call) (a : answer A) : M A := λ s,
  (a.1, Fsys (cwd s) (dirs s) (apply_writes (cwd s) a.2 (files s)),
   [(cwd s, Call c)]).

(** A call on a file the collaborator reads: the call and its answer are
    given from what is under the name at that moment. *)
Definition invoke_on {A} (p : string) (k : option file → call * answer A) : M A :=
  λ s, let found := files s !! resolve (cwd s) p in
       invoke (k found).1 (k found).2 s.

Record Env : Type := {
  (** [str(Path.home() / '.deacsm')] *)
  config_dir : string;
  (** [str(Path(p))] *)
  path_str : string → string;
  (** [etree.fromstring] *)
  fromstring : string → res element;
  (** the bytes of a ZIP archive with these members *)
  zip_bytes : list member → list byte;
  (** what [zipfile.ZipFile(p, "a")] raises on a file with these bytes, as
      NotImplementedError for a format version it does not read; [None]
      when it opens the file.  BadZipFile is not among these: mode "a"
      catches it and starts an archive at the end of the file. *)
  zipfile_error : list byte → option string;
  (** [ineptepub.decryptBook], [None] when the import failed *)
  decryptBook : option (list byte → string → string → answer Z);
  update_account_path : string → answer unit;
  createDeviceKeyFile : answer unit;
  createDeviceFile : bool → Z → answer bool;
  createUser : Z → answer (bool * string);
  signIn : string → string → string → answer (bool * string);
  activateDevice : Z → answer (bool * string);
  exportAccountEncryptionKeyDER : string → answer unit;
  fulfill : string → answer (bool * string);
  buildRights : option element → answer (option string);
  sendHTTPRequest_DL2FILE : option string → string → answer Z;
  (** [libpdf.patch_drm_into_pdf]; it reads its source file, so the answer
      may depend on what is found under that name *)
  patch_drm_into_pdf :
    string → option file → string → string → option string → answer bool
}.

(** ** The operating system and the standard library *)

Section os.
Context (env : Env).

(** The bytes [open(p, "rb")] reads from a file. *)
Definition file_bytes (f : file) : list byte :=
  leading f ++ from_option (zip_bytes env) [] (archive f).

Definition no_such_file (p : string) : string :=
  "[Errno 2] No such file or directory: '" +:+ p +:+ "'".

(** [os.getcwd()]; it raises when the working directory is gone. *)
Definition getcwd : M string := λ s,
  if decide (cwd s ∈ dirs s)
  then (Ret (cwd s), s, [(cwd s, FsOp op_getcwd)])
  else (Raise "[Errno 2] No such file or directory", s, [(cwd s, FsOp op_getcwd)]).

(** [os.chdir(p)].  The worker only passes absolute paths (the
    configuration directory and what [os.getcwd] returned), so a directory
    is named by the path given. *)
Definition chdir (p : string) : M unit := λ s,
  if decide (p ∈ dirs s)
  then (Ret tt, Fsys p (dirs s) (files s), [(cwd s, FsOp (op_chdir p))])
  else (Raise (no_such_file p), s, [(cwd s, FsOp (op_chdir p))]).

(** [Path(p).mkdir(exist_ok=True)], [p] absolute; the parent is taken to
    exist. *)
Definition mkdir_exist_ok (p : string) : M unit := λ s,
  if decide (p ∈ dirs s) then (Ret tt, s, [(cwd s, FsOp (op_mkdir p))])
  else if decide (p ∈ dom (files s))
  then (Raise ("[Errno 17] File exists: '" +:+ p +:+ "'"), s, [(cwd s, FsOp (op_mkdir p))])
  else (Ret tt, Fsys (cwd s) ({[p]} ∪ dirs s) (files s), [(cwd s, FsOp (op_mkdir p))]).

(** [with open(p, "rb") as f: f.read(n)], and [f.read()] for [None]. *)
Definition read_file (p : string) (n : option nat) : M (list byte) := λ s,
  match files s !! resolve (cwd s) p with
  | Some f =>
      (Ret (match n with Some k => take k (file_bytes f) | None => file_bytes f end),
       s, [(cwd s, FsOp (op_read p n))])
  | None => (Raise (no_such_file p), s, [(cwd s, FsOp (op_read p n))])
  end.

(** [shutil.move(src, dst)] of a file to a name of the directory it is in,
    [dst] not being a directory: the file goes to [dst], replacing what was
    there. *)
Definition move_file (o : fsop) (src dst : string) : M unit := λ s,
  match files s !! resolve (cwd s) src with
  | Some f =>
      (Ret tt,
       Fsys (cwd s) (dirs s)
            (<[resolve (cwd s) dst := f]> (delete (resolve (cwd s) src) (files s))),
       [(cwd s, FsOp o)])
  | None => (Raise (no_such_file src), s, [(cwd s, FsOp o)])
  end.

Definition shutil_move (src dst : string) : M unit :=
  move_file (op_move src dst) src dst.

(** Whether the directory a path is looked up in exists; the root does. *)
Definition parent_exists (s : fsys) (q : string) : bool :=
  match dirname q with
  | Some EmptyString | None => true
  | Some d => bool_decide (d ∈ dirs s)
  end.

(** [os.rename(src, dst)] of a file: it raises when there is no [src], when
    [dst] is a directory and when the directory of [dst] does not exist;
    otherwise the file goes to [dst], replacing what was there. *)
Definition os_rename (src dst : string) : M unit := λ s,
  let o := [(cwd s, FsOp (op_rename src dst))] in
  match files s !! resolve (cwd s) src with
  | Some f =>
      if bool_decide (resolve (cwd s) dst ∈ dirs s) then
        (Raise ("[Errno 21] Is a directory: '" +:+ src +:+ "' -> '" +:+ dst +:+ "'"),
         s, o)
      else if parent_exists s (resolve (cwd s) dst) then
        (Ret tt,
         Fsys (cwd s) (dirs s)
              (<[resolve (cwd s) dst := f]> (delete (resolve (cwd s) src) (files s))),
         o)
      else
        (Raise ("[Errno 2] No such file or directory: '" +:+ src +:+ "' -> '"
                +:+ dst +:+ "'"), s, o)
  | None =>
      (Raise ("[Errno 2] No such file or directory: '" +:+ src +:+ "' -> '"
              +:+ dst +:+ "'"), s, o)
  end.

(** [os.remove(p)] *)
Definition os_remove (p : string) : M unit := λ s,
  match files s !! resolve (cwd s) p with
  | Some _ =>
      (Ret tt, Fsys (cwd s) (dirs s) (delete (resolve (cwd s) p) (files s)),
       [(cwd s, FsOp (op_remove p))])
  | None => (Raise (no_such_file p), s, [(cwd s, FsOp (op_remove p))])
  end.

(** [str.encode("utf-8")]: a Rocq string already is its bytes. *)
Definition encode_utf8 (s : string) : list byte := String.list_byte_of_string s.

(** [z.writestr(name, data)] on an archive opened in mode "a": the member
    is added after those of the archive, whatever their names; on a file
    that holds no archive one is started after the bytes that are there. *)
Definition zip_append (f : file) (name : string) (data : string) : file :=
  File (leading f) (Some (zip_members f ++ [(name, encode_utf8 data)])).

(** [with zf.ZipFile(p, "a") as z: z.writestr(name, data)].  Opening raises
    on a directory and on content [zipfile] refuses; it creates the file
    when there is none. *)
Definition zip_writestr (p name data : string) : M unit := λ s,
  let q := resolve (cwd s) p in
  let o := [(cwd s, FsOp (op_zip_writestr p name))] in
  let written f :=
    (Ret tt, Fsys (cwd s) (dirs s) (<[q := zip_append f name data]> (files s)), o) in
  if bool_decide (q ∈ dirs s) then
    (Raise ("[Errno 21] Is a directory: '" +:+ p +:+ "'"), s, o)
  else
    match files s !! q with
    | Some f =>
        match zipfile_error env (file_bytes f) with
        | Some e => (Raise e, s, o)
        | None => written f
        end
    | None => written (File [] None)
    end.

(** [z.NameToInfo], with the bytes in place of the entry: [zipfile] fills
    it in the order of the archive, so a name stands for the last member
    that bears it.  Names are compared as they are written. *)
Definition NameToInfo (f : file) : gmap string (list byte) :=
  list_to_map (reverse (zip_members f)).

(** [z.read(name)], [None] where it raises KeyError. *)
Definition zip_read (f : file) (name : string) : option (list byte) :=
  NameToInfo f !! name.

(** [node.text] on the result of a [find]: on [None] the attribute access
    raises AttributeError. *)
Definition text_of (node : option element) : M (option string) :=
  match node with
  | Some e => mret (text e)
  | None => raise "'NoneType' object has no attribute 'text'"
  end.

(** [node.find(path)] on the result of a [find]. *)
Definition find_of (path : list string) (node : option element) : M (option element) :=
  match node with
  | Some e => mret (find path e)
  | None => raise "'NoneType' object has no attribute 'find'"
  end.

(** [a + b] on strings, [a] possibly [None]. *)
Definition str_add (a : option string) (b : string) : M string :=
  match a with
  | Some x => mret (x +:+ b)
  | None => raise "unsupported operand type(s) for +: 'NoneType' and 'str'"
  end.

(** [etree.fromstring(s)] *)
Definition etree_fromstring (s : string) : M element :=
  match fromstring env s with
  | Ret e => mret e
  | Raise e => raise e
  end.

End os.

(** ** Content sniffing (worker.py, lines 153-162) *)

(** A bytes literal, [b"..."]. *)
Definition b (s : string) : list byte := String.list_byte_of_string s.

(** [bs.startswith(p)] *)
Fixpoint startswith (bs p : list byte) {struct p} : bool :=
  match p, bs with
  | [], _ => true
  | x :: p', y :: bs' => Byte.eqb x y && startswith bs' p'
  | _ :: _, [] => false
  end.

(** The [if]/[elif]/[else] that sets [filetype]. *)
Definition sniff (book_content : list byte) : string :=
  if startswith book_content (b "PK") then ".epub"
  else if startswith book_content (b "%PDF") then ".pdf"
  else ".bin".

(** [str(n)] for an integer, as an f-string formats it. *)
Definition str_int (n : Z) : string := pretty n.
Arguments str_int : simpl never.

(** ** The worker *)

(** An argument of the worker: the main window passes strings and, for the
    protocol version, an integer. *)
Inductive pyval : Type :=
| PStr (s : string)
| PInt (n : Z).

Record WorkerThread : Type := {
  task_type : string;
  args : list pyval
}.

Section worker.
Context (env : Env).

(** *** _decrypt_epub (lines 197-223) *)

Definition _decrypt_epub (epub_path key_path output_path : string) : M unit :=
  match decryptBook env with
  | None => emit (Finished false "ineptepub module not available")
  | Some decrypt =>
      emit (Progress "Reading key file...");;
      key ← try_except
              (Some <$> read_file env key_path None)
              (λ e, emit (Finished false ("Failed to read key file: " +:+ e));;
                    mret None);
      match key with
      | None => mret tt
      | Some userkey =>
          emit (Progress "Decrypting EPUB...");;
          try_except
            (result ← invoke (c_decryptBook userkey epub_path output_path)
                             (decrypt userkey epub_path output_path);
             if result =? 0 then
               emit (Finished true ("Successfully decrypted to: " +:+ output_path))
             else if result =? 1 then
               emit (Finished false "EPUB is DRM-free")
             else if result =? 2 then
               emit (Finished false "Failed to decrypt: wrong key")
             else
               emit (Finished false
                       ("Decryption failed with error code " +:+ str_int result)))
            (λ e, emit (Finished false ("Decryption error: " +:+ e)))
      end
  end.

(** *** _login_adobe (lines 52-95) *)

Definition _login_adobe (email password : string) (version : Z) : M unit :=
  emit (Progress "Creating device files...");;
  mkdir_exist_ok (config_dir env);;
  old_cwd ← getcwd;
  try_finally
    (chdir (config_dir env);;
     invoke (c_update_account_path (config_dir env))
            (update_account_path env (config_dir env));;
     invoke c_createDeviceKeyFile (createDeviceKeyFile env);;
     success ← invoke (c_createDeviceFile true version)
                      (createDeviceFile env true version);
     if negb success then emit (Finished false "Failed to create device file")
     else
       emit (Progress "Creating user account...");;
       '(success, resp) ← invoke (c_createUser version) (createUser env version);
       if negb success then emit (Finished false ("Failed to create user: " +:+ resp))
       else
         emit (Progress "Signing in...");;
         '(success, resp) ← invoke (c_signIn "AdobeID" email password)
                                   (signIn env "AdobeID" email password);
         if negb success then emit (Finished false ("Failed to sign in: " +:+ resp))
         else
           emit (Progress "Activating device...");;
           '(success, resp) ← invoke (c_activateDevice version)
                                     (activateDevice env version);
           if negb success then
             emit (Finished false ("Failed to activate device: " +:+ resp))
           else
             emit (Progress "Exporting keys...");;
             invoke (c_exportAccountEncryptionKeyDER "adobekey.der")
                    (exportAccountEncryptionKeyDER env "adobekey.der");;
             emit (Finished true ("Successfully authorized as " +:+ email)))
    (chdir old_cwd).

(** *** _fulfill_acsm (lines 97-195)

    The body of its [try] is cut in three stages: [negotiate] (lines
    109-142), [download] (lines 144-151) and [deliver] (lines 153-191).  A
    stage answers [None] where the source has emitted [finished] and
    returns. *)

Definition src_path : list string :=
  [adNS "fulfillmentResult"; adNS "resourceItemInfo"; adNS "src"].
Definition licenseToken_path : list string :=
  [adNS "fulfillmentResult"; adNS "resourceItemInfo"; adNS "licenseToken"].
Definition metadata_path : list string :=
  [adNS "fulfillmentResult"; adNS "resourceItemInfo"; adNS "metadata"].
Definition resource_path : list string :=
  [adNS "licenseToken"; adNS "resource"].

(** Lines 125-130: the two lookups under the bare [except]. *)
Definition parse_reply (adobe_fulfill_response : element)
  : M (option (option string * option element)) :=
  try_except
    (download_url ← text_of (find src_path adobe_fulfill_response);
     let license_token_node := find licenseToken_path adobe_fulfill_response in
     mret (Some (download_url, license_token_node)))
    (λ _, emit (Finished false "Failed to parse fulfillment response");;
          mret None).

(** Lines 137-142: the title, or "Book". *)
Definition get_book_name (adobe_fulfill_response : element) : M (option string) :=
  try_except
    (let metadata_node := find metadata_path adobe_fulfill_response in
     title ← find_of [adDC "title"] metadata_node;
     text_of title)
    (λ _, mret (Some "Book")).

Definition negotiate (acsm_path : string)
  : M (option (option string * string * option string)) :=
  chdir (config_dir env);;
  invoke (c_update_account_path (config_dir env))
         (update_account_path env (config_dir env));;
  emit (Progress "Fulfilling book...");;
  '(success, replyData) ← invoke (c_fulfill (path_str env acsm_path))
                                 (fulfill env (path_str env acsm_path));
  if negb success then
    emit (Finished false ("Fulfillment failed: " +:+ replyData));; mret None
  else
    adobe_fulfill_response ← etree_fromstring env replyData;
    parsed ← parse_reply adobe_fulfill_response;
    match parsed with
    | None => mret None
    | Some (download_url, license_token_node) =>
        rights_xml_str ← invoke (c_buildRights license_token_node)
                                (buildRights env license_token_node);
        match rights_xml_str with
        | None => emit (Finished false "Failed to build rights.xml");; mret None
        | Some rights_xml_str =>
            book_name ← get_book_name adobe_fulfill_response;
            mret (Some (download_url, rights_xml_str, book_name))
        end
    end.

Definition download (download_url book_name : option string) : M (option string) :=
  emit (Progress "Downloading book...");;
  filename_tmp ← str_add book_name ".tmp";
  ret ← invoke (c_sendHTTPRequest_DL2FILE download_url filename_tmp)
               (sendHTTPRequest_DL2FILE env download_url filename_tmp);
  if negb (ret =? 200) then
    emit (Finished false ("Download failed with error " +:+ str_int ret));; mret None
  else mret (Some filename_tmp).

Definition deliver (rights_xml_str : string) (book_name : option string)
    (filename_tmp : string) : M unit :=
  book_content ← read_file env filename_tmp (Some 10%nat);
  let filetype := sniff book_content in
  filename ← str_add book_name filetype;
  shutil_move filename_tmp filename;;
  if String.eqb filetype ".epub" then
    zip_writestr env filename "META-INF/rights.xml" rights_xml_str;;
    emit (Progress ("File fulfilled: " +:+ filename));;
    emit (Finished true ("Successfully fulfilled: " +:+ filename))
  else if String.eqb filetype ".pdf" then
    emit (Progress "Patching PDF encryption...");;
    adobe_fulfill_response ← etree_fromstring env rights_xml_str;
    resource ← text_of (find resource_path adobe_fulfill_response);
    os_rename filename ("tmp_" +:+ filename);;
    ret ← invoke_on ("tmp_" +:+ filename) (λ found,
             (c_patch_drm_into_pdf ("tmp_" +:+ filename) found rights_xml_str
                                   filename resource,
              patch_drm_into_pdf env ("tmp_" +:+ filename) found rights_xml_str
                                 filename resource));
    os_remove ("tmp_" +:+ filename);;
    if ret : bool then emit (Finished true ("Successfully fulfilled: " +:+ filename))
    else emit (Finished false ("Failed to patch PDF: " +:+ filename))
  else emit (Finished false "Unsupported file type").

(** The body of the [try] (lines 109-191). *)
Definition fulfill_body (acsm_path : string) : M unit :=
  r ← negotiate acsm_path;
  match r with
  | None => mret tt
  | Some (download_url, rights_xml_str, book_name) =>
      d ← download download_url book_name;
      match d with
      | None => mret tt
      | Some filename_tmp => deliver rights_xml_str book_name filename_tmp
      end
  end.

Definition _fulfill_acsm (acsm_path key_path : string) : M unit :=
  emit (Progress "Reading ACSM file...");;
  old_cwd ← getcwd;
  try_finally
    (try_except (fulfill_body acsm_path)
                (λ e, emit (Finished false ("Error: " +:+ e))))
    (chdir old_cwd).

(** *** run (lines 41-50)

    [dispatch] is the body of the [try].  [self._login_adobe( *self.args)]
    raises TypeError when the arguments do not fit the parameters; the main
    window passes (str, str, int) to "login", (str, str) to "fulfill" and
    (str, str, str) to "decrypt". *)
Definition dispatch (self : WorkerThread) : M unit :=
  if String.eqb (task_type self) "login" then
    match args self with
    | [PStr email; PStr password; PInt version] =>
        _login_adobe email password version
    | _ => raise "_login_adobe(): wrong arguments"
    end
  else if String.eqb (task_type self) "fulfill" then
    match args self with
    | [PStr acsm_path; PStr key_path] => _fulfill_acsm acsm_path key_path
    | _ => raise "_fulfill_acsm(): wrong arguments"
    end
  else if String.eqb (task_type self) "decrypt" then
    match args self with
    | [PStr epub_path; PStr key_path; PStr output_path] =>
        _decrypt_epub epub_path key_path output_path
    | _ => raise "_decrypt_epub(): wrong arguments"
    end
  else mret tt.

Definition run (self : WorkerThread) : M unit :=
  try_except (dispatch self)
             (λ e, emit (Finished false ("Error: " +:+ e))).

End worker.

(** ** Reading a trace *)

(** The notifications, in the order of emission. *)
Definition signals (t : trace) : list event :=
  omap (λ de, match de.2 with
              | Progress m => Some (Progress m)
              | Finished ok m => Some (Finished ok m)
              | _ => None
              end) t.

(** The collaborator calls, each with the working directory it ran in. *)
Definition calls (t : trace) : list (string * call) :=
  omap (λ de, match de.2 with Call c => Some (de.1, c) | _ => None end) t.

(** The file operations. *)
Definition fsops (t : trace) : list (string * fsop) :=
  omap (λ de, match de.2 with FsOp o => Some (de.1, o) | _ => None end) t.

(** [needle in hay] on strings. *)
Definition contains (needle hay : string) : Prop :=
  ∃ pre post, hay = pre +:+ needle +:+ post.

(** ** The shape of a notification sequence *)

(** Progress messages only. *)
Fixpoint only_progress (l : list event) : bool :=
  match l with
  | [] => true
  | Progress _ :: l' => only_progress l'
  | _ => false
  end.

(** Progress messages, then one terminal notification, then nothing. *)
Fixpoint notifies_once (l : list event) : bool :=
  match l with
  | [Finished _ _] => true
  | Progress _ :: l' => notifies_once l'
  | _ => false
  end.

(** A workflow that returns has notified once; one that raises has only
    reported progress, and leaves the terminal notification to [run]. *)
Definition well_notified {A} (out : res A * fsys * trace) : bool :=
  match out.1.1 with
  | Ret _ => notifies_once (signals out.2)
  | Raise _ => only_progress (signals out.2)
  end.

(** ** Replies with elements the worker does not know *)

(** The tags the worker looks for in a fulfillment reply. *)
Definition known_tags : list string :=
  [adNS "fulfillmentResult"; adNS "resourceItemInfo"; adNS "src";
   adNS "licenseToken"; adNS "metadata"; adDC "title"].

(** [extra e e']: [e'] is [e] with one more element, of a tag the worker
    does not look for, among the children of [e] or of a descendant. *)
Inductive extra : element → element → Prop :=
| extra_here t x l1 l2 y :
    tag y ∉ known_tags →
    extra (Element t x (l1 ++ l2)) (Element t x (l1 ++ y :: l2))
| extra_below t x l1 l2 c c' :
    extra c c' →
    extra (Element t x (l1 ++ c :: l2)) (Element t x (l1 ++ c' :: l2)).

(** Equal up to any number of extra unknown elements. *)
Definition alike : element → element → Prop := rtc extra.

Arguments resolve : simpl never.
Arguments file_bytes : simpl never.

(** ** Proof tools *)

(** Runs a workflow as far as its definition decides it. *)
Ltac run_M :=
  cbv beta iota zeta delta
    [mbind M_bind bind_M mret M_ret ret_M fmap M_fmap try_except try_finally
     emit invoke invoke_on raise getcwd chdir mkdir_exist_ok read_file shutil_move os_rename
     move_file os_remove zip_writestr text_of find_of str_add etree_fromstring
     negb];
  cbn beta iota zeta delta [app fst snd cwd dirs files].

(** Reads the notifications, calls and file operations off a trace. *)
Ltac read_trace :=
  cbn beta iota zeta delta [app omap list_omap signals calls fsops fst snd].

(** Case analysis on the innermost value a [match] of the goal waits for. *)
Ltac destruct_match :=
  match goal with
  | |- context [match ?x with _ => _ end] =>
      lazymatch x with
      | context [match _ with _ => _ end] => fail
      | _ => destruct x eqn:?
      end
  end.

Ltac unfold_worker :=
  unfold run, dispatch, _login_adobe, _fulfill_acsm, _decrypt_epub, fulfill_body, negotiate,
    download, deliver, parse_reply, get_book_name.

(** A second look at a decision already taken cannot differ from the first. *)
Ltac absurd_decision :=
  match goal with
  | H : left _ = right _ |- _ => discriminate H
  | H : right _ = left _ |- _ => discriminate H
  end.

Ltac run_all :=
  unfold_worker; run_M; repeat (destruct_match; try absurd_decision; run_M).

Ltac norm_app := rewrite ?app_nil_r, <- ?app_assoc; cbn [app].

(** A member of a union cannot be missing from it. *)
Ltac absurd_union :=
  match goal with
  | H : ?x ∉ {[?x]} ∪ _ |- _ =>
      destruct H; apply elem_of_union_l, elem_of_singleton; reflexivity
  | H : ?x ∉ _ ∪ ?X, H' : ?x ∈ ?X |- _ =>
      destruct H; apply elem_of_union_r; exact H'
  end.

(** ** A concrete installation, for examples *)

Module Demo.

Definition reply : element :=
  Element (adNS "envelope") None
    [Element (adNS "fulfillmentResult") None
       [Element (adNS "fulfillment") (Some "urn:uuid:f0") [];
        Element (adNS "resourceItemInfo") None
          [Element (adNS "resource") (Some "urn:uuid:r0") [];
           Element (adNS "src") (Some "http://acs.example/book") [];
           Element (adNS "licenseToken") None
             [Element (adNS "resource") (Some "urn:uuid:r0") []];
           Element (adNS "metadata") None
             [Element (adDC "title") (Some "Moby") []]]]].

(** The same reply without its license token. *)
Definition reply_no_token : element :=
  Element (adNS "envelope") None
    [Element (adNS "fulfillmentResult") None
       [Element (adNS "resourceItemInfo") None
          [Element (adNS "src") (Some "http://acs.example/book") [];
           Element (adNS "metadata") None
             [Element (adDC "title") (Some "Moby") []]]]].

Definition rights : element :=
  Element (adNS "rights") None
    [Element (adNS "licenseToken") None
       [Element (adNS "resource") (Some "urn:uuid:r0") []]].

(** An installation that answers [the_reply], serves [content] with
    [status], patches with [patched] and decrypts with [code]. *)
Definition env (the_reply : element) (content : file) (status : Z)
    (patched : bool) (code : option Z) : Env := {|
  config_dir := "/home/u/.deacsm";
  path_str := λ p, p;
  fromstring := λ s,
    if String.eqb s "<reply/>" then Ret the_reply
    else if String.eqb s "<rights/>" then Ret rights
    else Raise "Document is empty";
  zip_bytes := λ ms, b "PK";
  zipfile_error := λ _, None;
  decryptBook := (λ c, λ _ _ dst, (Ret c, [(dst, File [] (Some []))])) <$> code;
  update_account_path := λ _, (Ret tt, []);
  createDeviceKeyFile := (Ret tt, [("devicesalt", File (b "salt") None)]);
  createDeviceFile := λ _ _, (Ret true, [("device.xml", File (b "<d/>") None)]);
  createUser := λ _, (Ret (true, ""), []);
  signIn := λ _ _ _, (Ret (true, ""), []);
  activateDevice := λ _, (Ret (true, ""), [("activation.xml", File (b "<a/>") None)]);
  exportAccountEncryptionKeyDER := λ f, (Ret tt, [(f, File (b "key") None)]);
  fulfill := λ _, (Ret (true, "<reply/>"), []);
  buildRights := λ node,
    match node with
    | Some _ => (Ret (Some "<rights/>"), [])
    | None => (Raise "Type 'NoneType' cannot be serialized.", [])
    end;
  sendHTTPRequest_DL2FILE := λ _ dst, (Ret status, [(dst, content)]);
  patch_drm_into_pdf := λ _ _ _ dst _,
  (Ret patched, [(dst, File (b "%PDF-patched") None)])
|}.

(** The reply with elements of a later schema added at two depths. *)
Definition reply_richer : element :=
  Element (adNS "envelope") None
    [Element (adNS "notice") (Some "new") [];
     Element (adNS "fulfillmentResult") None
       [Element (adNS "fulfillment") (Some "urn:uuid:f0") [];
        Element (adNS "resourceItemInfo") None
          [Element (adNS "resource") (Some "urn:uuid:r0") [];
           Element (adNS "expiry") (Some "never") [];
           Element (adNS "src") (Some "http://acs.example/book") [];
           Element (adNS "licenseToken") None
             [Element (adNS "resource") (Some "urn:uuid:r0") []];
           Element (adNS "metadata") None
             [Element (adDC "title") (Some "Moby") []]]]].

(** An installation whose device file cannot be made: the server is not
    reachable and [createDeviceFile] raises. *)
Definition offline : Env := {|
  config_dir := "/home/u/.deacsm";
  path_str := λ p, p;
  fromstring := λ _, Raise "Document is empty";
  zip_bytes := λ ms, b "PK";
  zipfile_error := λ _, None;
  decryptBook := None;
  update_account_path := λ _, (Ret tt, []);
  createDeviceKeyFile := (Ret tt, [("devicesalt", File (b "salt") None)]);
  createDeviceFile := λ _ _, (Raise "[Errno 111] Connection refused", []);
  createUser := λ _, (Raise "[Errno 111] Connection refused", []);
  signIn := λ _ _ _, (Raise "[Errno 111] Connection refused", []);
  activateDevice := λ _, (Raise "[Errno 111] Connection refused", []);
  exportAccountEncryptionKeyDER := λ _, (Raise "no key", []);
  fulfill := λ _, (Raise "[Errno 111] Connection refused", []);
  buildRights := λ _, (Ret None, []);
  sendHTTPRequest_DL2FILE := λ _ _, (Raise "[Errno 111] Connection refused", []);
  patch_drm_into_pdf := λ _ _ _ _ _, (Ret false, [])
|}.

Definition epub : file := File [] (Some [("mimetype", b "application/epub+zip")]).
Definition pdf : file := File (b "%PDF-1.4 body") None.

(** A machine with the configuration directory and a key file. *)
Definition machine : fsys := {|
  cwd := "/home/u";
  dirs := {["/home/u"; "/home/u/.deacsm"]};
  files := {["/home/u/.deacsm/adobekey.der" := File (b "key") None]}
|}.

End Demo.

(** ** Collaborator calls by name *)

(** The Python name of the collaborator a call goes to. *)
Definition call_name (c : call) : string :=
  match c with
  | c_update_account_path _ => "update_account_path"
  | c_createDeviceKeyFile => "createDeviceKeyFile"
  | c_createDeviceFile _ _ => "createDeviceFile"
  | c_createUser _ => "createUser"
  | c_signIn _ _ _ => "signIn"
  | c_activateDevice _ => "activateDevice"
  | c_exportAccountEncryptionKeyDER _ => "exportAccountEncryptionKeyDER"
  | c_fulfill _ => "fulfill"
  | c_buildRights _ => "buildRights"
  | c_sendHTTPRequest_DL2FILE _ _ => "sendHTTPRequest_DL2FILE"
  | c_patch_drm_into_pdf _ _ _ _ _ => "patch_drm_into_pdf"
  | c_decryptBook _ _ _ => "decryptBook"
  end.

(** The collaborators of a trace, by name, in the order of the calls. *)
Definition called (t : trace) : list string := (λ dc, call_name dc.2) <$> calls t.

(** ** More installations, for examples *)

Module Faulty.

(** [e] with another fulfillment service. *)
Definition with_fulfill (e : Env) (f : string → answer (bool * string)) : Env := {|
  config_dir := config_dir e;
  path_str := path_str e;
  fromstring := fromstring e;
  zip_bytes := zip_bytes e;
  zipfile_error := zipfile_error e;
  decryptBook := decryptBook e;
  update_account_path := update_account_path e;
  createDeviceKeyFile := createDeviceKeyFile e;
  createDeviceFile := createDeviceFile e;
  createUser := createUser e;
  signIn := signIn e;
  activateDevice := activateDevice e;
  exportAccountEncryptionKeyDER := exportAccountEncryptionKeyDER e;
  fulfill := f;
  buildRights := buildRights e;
  sendHTTPRequest_DL2FILE := sendHTTPRequest_DL2FILE e;
  patch_drm_into_pdf := patch_drm_into_pdf e
|}.

(** [e] with another rights builder. *)
Definition with_buildRights (e : Env)
    (f : option element → answer (option string)) : Env := {|
  config_dir := config_dir e;
  path_str := path_str e;
  fromstring := fromstring e;
  zip_bytes := zip_bytes e;
  zipfile_error := zipfile_error e;
  decryptBook := decryptBook e;
  update_account_path := update_account_path e;
  createDeviceKeyFile := createDeviceKeyFile e;
  createDeviceFile := createDeviceFile e;
  createUser := createUser e;
  signIn := signIn e;
  activateDevice := activateDevice e;
  exportAccountEncryptionKeyDER := exportAccountEncryptionKeyDER e;
  fulfill := fulfill e;
  buildRights := f;
  sendHTTPRequest_DL2FILE := sendHTTPRequest_DL2FILE e;
  patch_drm_into_pdf := patch_drm_into_pdf e
|}.

(** [e] with another patch operation. *)
Definition with_patch (e : Env)
    (f : string → option file → string → string → option string → answer bool)
  : Env := {|
  config_dir := config_dir e;
  path_str := path_str e;
  fromstring := fromstring e;
  zip_bytes := zip_bytes e;
  zipfile_error := zipfile_error e;
  decryptBook := decryptBook e;
  update_account_path := update_account_path e;
  createDeviceKeyFile := createDeviceKeyFile e;
  createDeviceFile := createDeviceFile e;
  createUser := createUser e;
  signIn := signIn e;
  activateDevice := activateDevice e;
  exportAccountEncryptionKeyDER := exportAccountEncryptionKeyDER e;
  fulfill := fulfill e;
  buildRights := buildRights e;
  sendHTTPRequest_DL2FILE := sendHTTPRequest_DL2FILE e;
  patch_drm_into_pdf := f
|}.

(** [e] with another decryption module. *)
Definition with_decryptBook (e : Env)
    (f : option (list byte → string → string → answer Z)) : Env := {|
  config_dir := config_dir e;
  path_str := path_str e;
  fromstring := fromstring e;
  zip_bytes := zip_bytes e;
  zipfile_error := zipfile_error e;
  decryptBook := f;
  update_account_path := update_account_path e;
  createDeviceKeyFile := createDeviceKeyFile e;
  createDeviceFile := createDeviceFile e;
  createUser := createUser e;
  signIn := signIn e;
  activateDevice := activateDevice e;
  exportAccountEncryptionKeyDER := exportAccountEncryptionKeyDER e;
  fulfill := fulfill e;
  buildRights := buildRights e;
  sendHTTPRequest_DL2FILE := sendHTTPRequest_DL2FILE e;
  patch_drm_into_pdf := patch_drm_into_pdf e
|}.

(** [e] with another sign-in service. *)
Definition with_signIn (e : Env)
    (f : string → string → string → answer (bool * string)) : Env := {|
  config_dir := config_dir e;
  path_str := path_str e;
  fromstring := fromstring e;
  zip_bytes := zip_bytes e;
  zipfile_error := zipfile_error e;
  decryptBook := decryptBook e;
  update_account_path := update_account_path e;
  createDeviceKeyFile := createDeviceKeyFile e;
  createDeviceFile := createDeviceFile e;
  createUser := createUser e;
  signIn := f;
  activateDevice := activateDevice e;
  exportAccountEncryptionKeyDER := exportAccountEncryptionKeyDER e;
  fulfill := fulfill e;
  buildRights := buildRights e;
  sendHTTPRequest_DL2FILE := sendHTTPRequest_DL2FILE e;
  patch_drm_into_pdf := patch_drm_into_pdf e
|}.

(** The usual installation, serving [content]. *)
Definition usual (content : file) : Env :=
  Demo.env Demo.reply content 200 true (Some 0).

(** A reply whose title element is empty, [<dc:title/>]. *)
Definition reply_empty_title : element :=
  Element (adNS "envelope") None
    [Element (adNS "fulfillmentResult") None
       [Element (adNS "resourceItemInfo") None
          [Element (adNS "src") (Some "http://acs.example/book") [];
           Element (adNS "licenseToken") None
             [Element (adNS "resource") (Some "urn:uuid:r0") []];
           Element (adNS "metadata") None
             [Element (adDC "title") None []]]]].


(** A machine that has never been authorized: no configuration directory. *)
(** [e] on which [zipfile] refuses every file with the exception [err]. *)
Definition refusing_zipfile (e : Env) (err : string) : Env := {|
  config_dir := config_dir e;
  path_str := path_str e;
  fromstring := fromstring e;
  zip_bytes := zip_bytes e;
  zipfile_error := λ _, Some err;
  decryptBook := decryptBook e;
  update_account_path := update_account_path e;
  createDeviceKeyFile := createDeviceKeyFile e;
  createDeviceFile := createDeviceFile e;
  createUser := createUser e;
  signIn := signIn e;
  activateDevice := activateDevice e;
  exportAccountEncryptionKeyDER := exportAccountEncryptionKeyDER e;
  fulfill := fulfill e;
  buildRights := buildRights e;
  sendHTTPRequest_DL2FILE := sendHTTPRequest_DL2FILE e;
  patch_drm_into_pdf := patch_drm_into_pdf e
|}.

(** A container that already holds a rights document. *)
Definition licensed_epub : file :=
  File [] (Some [("mimetype", b "application/epub+zip");
                 ("META-INF/rights.xml", b "<old/>")]).

Definition fresh_machine : fsys := {|
  cwd := "/home/u";
  dirs := {["/home/u"]};
  files := ∅
|}.

End Faulty.
(** The collaborator calls of a successful authorization, in order. *)
Definition login_calls (env : Env) (email password : string) (version : Z)
  : list call :=
  [c_update_account_path (config_dir env); c_createDeviceKeyFile;
   c_createDeviceFile true version; c_createUser version;
   c_signIn "AdobeID" email password; c_activateDevice version;
   c_exportAccountEncryptionKeyDER "adobekey.der"].

(** * The main window and the login dialog (src/main_window.py, src/dialogs.py) *)

(** ** Python strings and paths *)

(** [str.lower] on the ASCII letters, strings being UTF-8.  The window only
    compares the result with the ASCII literals ".acsm" and ".epub", and no
    character outside ASCII lowers to a letter of those, so the comparisons
    come out as in Python. *)
Definition lower_ascii (c : ascii) : ascii :=
  let n := nat_of_ascii c in
  if (65 <=? n)%nat && (n <=? 90)%nat then ascii_of_nat (n + 32) else c.

Fixpoint lower (s : string) : string :=
  match s with
  | EmptyString => EmptyString
  | String c s' => String (lower_ascii c) (lower s')
  end.

(** The characters [str.strip] removes, in UTF-8: U+0009-000D, U+001C-001F,
    U+0020, U+0085, U+00A0, U+1680, U+2000-200A, U+2028, U+2029, U+202F,
    U+205F and U+3000. *)
Definition whitespace : list string :=
  String.string_of_list_byte <$>
    [[x09]; [x0a]; [x0b]; [x0c]; [x0d]; [x1c]; [x1d]; [x1e]; [x1f]; [x20];
     [xc2; x85]; [xc2; xa0]; [xe1; x9a; x80];
     [xe2; x80; x80]; [xe2; x80; x81]; [xe2; x80; x82]; [xe2; x80; x83];
     [xe2; x80; x84]; [xe2; x80; x85]; [xe2; x80; x86]; [xe2; x80; x87];
     [xe2; x80; x88]; [xe2; x80; x89]; [xe2; x80; x8a];
     [xe2; x80; xa8]; [xe2; x80; xa9]; [xe2; x80; xaf]; [xe2; x81; x9f];
     [xe3; x80; x80]].

(** [s] without the prefix [p], when it starts with it. *)
Fixpoint strip_prefix (p s : string) : option string :=
  match p, s with
  | EmptyString, _ => Some s
  | String a p', String c s' =>
      if Ascii.eqb a c then strip_prefix p' s' else None
  | String _ _, EmptyString => None
  end.

(** What is left after one leading white space character, if there is one. *)
Definition drop_space (ws : list string) (s : string) : option string :=
  list_find is_Some ((λ w, strip_prefix w s) <$> ws) ≫= snd.

Fixpoint lstrip_fuel (ws : list string) (fuel : nat) (s : string) : string :=
  match fuel with
  | O => s
  | S fuel' =>
      match drop_space ws s with
      | Some s' => lstrip_fuel ws fuel' s'
      | None => s
      end
  end.

(** [str.lstrip()] *)
Definition lstrip (s : string) : string :=
  lstrip_fuel whitespace (String.length s) s.

(** [str.rstrip()]: the same from the other end. *)
Definition rstrip (s : string) : string :=
  String.rev (lstrip_fuel (String.rev <$> whitespace) (String.length s)
                          (String.rev s)).

(** [str.strip()] *)
Definition strip (s : string) : string := rstrip (lstrip s).

(** [s.split("/")] *)
Fixpoint split_slash (s : string) : list string :=
  match s with
  | EmptyString => [EmptyString]
  | String c s' =>
      if Ascii.eqb c "/" then EmptyString :: split_slash s'
      else match split_slash s' with
           | x :: l => String c x :: l
           | [] => [String c EmptyString]
           end
  end.

(** The components of [PurePosixPath(p)] after its root: empty components
    and "." are dropped. *)
Definition path_parts (p : string) : list string :=
  filter (λ c, c ≠ "" ∧ c ≠ ".") (split_slash p).

(** [Path(p).name] *)
Definition path_name (p : string) : string := default "" (last (path_parts p)).

(** [name.rfind(".")], counted from [i]. *)
Fixpoint rfind_dot (name : string) (i : nat) : option nat :=
  match name with
  | EmptyString => None
  | String c name' =>
      match rfind_dot name' (S i) with
      | Some j => Some j
      | None => if Ascii.eqb c "." then Some i else None
      end
  end.

(** Where the suffix of a file name starts: the last dot, unless it is the
    first or the last character. *)
Definition suffix_at (name : string) : option nat :=
  i ← rfind_dot name 0;
  if (0 <? i)%nat && (i <? String.length name - 1)%nat then Some i else None.

(** [Path(p).suffix] *)
Definition path_suffix (p : string) : string :=
  let name := path_name p in
  match suffix_at name with
  | Some i => String.substring i (String.length name - i) name
  | None => ""
  end.

(** [Path(p).stem] *)
Definition path_stem (p : string) : string :=
  let name := path_name p in
  match suffix_at name with
  | Some i => String.substring 0 i name
  | None => name
  end.

(** [str(x)] for a path that may be [None]. *)
Definition str_path (p : option string) : string := default "None" p.

(** ** Directory listings *)

(** [name.endswith(suf)] *)
Definition endswith (name suf : string) : bool :=
  match strip_prefix (String.rev suf) (String.rev name) with
  | Some _ => true
  | None => false
  end.

(** The shell pattern [pre*suf] on a file name. *)
Definition fnmatch (pre suf name : string) : bool :=
  match strip_prefix pre name with
  | Some rest => endswith rest suf
  | None => false
  end.

Definition has_slash (s : string) : bool :=
  existsb (Ascii.eqb "/") (String.list_ascii_of_string s).

(** The name of [k] in the directory [d], when [k] is an entry of it. *)
Definition child_name (d k : string) : option string :=
  n ← strip_prefix (d +:+ "/") k;
  if String.eqb n "" || has_slash n then None else Some n.

(** Whether the path [k] is an entry of [d] whose name matches [pre*suf]. *)
Definition glob_match (d pre suf k : string) : bool :=
  match child_name d k with
  | Some n => fnmatch pre suf n
  | None => false
  end.

(** [Path(d).glob("pre*suf")]: the entries of [d], files and directories,
    whose name matches, as paths.  The order is the one of the file
    system, of which nothing is known. *)
Definition glob (d pre suf : string) (s : fsys) : list string :=
  filter (λ k, glob_match d pre suf k) (elements (dom (files s) ∪ dirs s)).

(** One step of a stable sort by decreasing key. *)
Fixpoint insert_desc (key : string → Z) (x : string) (l : list string)
  : list string :=
  match l with
  | [] => [x]
  | y :: l' => if key y <=? key x then x :: y :: l' else y :: insert_desc key x l'
  end.

(** [sorted(l, key=key, reverse=True)]: decreasing keys, equal keys in the
    order of [l]. *)
Definition sorted_desc (key : string → Z) (l : list string) : list string :=
  foldr (insert_desc key) [] l.

(** ** What the window shows and starts *)

Inductive box_kind : Type := information | critical | warning.

(** The slot the [finished] signal of a worker is connected to; [progress]
    always goes to [log]. *)
Inductive receiver : Type :=
| to_authorization_complete
| to_process_complete
| to_acsm_fulfilled.

Inductive ui_event : Type :=
| MessageBox (kind : box_kind) (title text : string)
| LoginDialogShown
| OpenFileName (caption directory filter : string)
| SaveFileName (caption directory filter : string)
| Start (w : WorkerThread) (finished_to : receiver).

(** ** The login dialog *)

(** The two items of the version box. *)
Inductive ade : Type := ADE_2_0 | ADE_3_0.

(** [version_combo.currentData()] *)
Definition currentData (v : ade) : Z :=
  match v with
  | ADE_2_0 => 1
  | ADE_3_0 => 2
  end.

Record login_data : Type := {
  type : string;
  email : string;
  password : string;
  version : Z
}.

Record LoginDialog : Type := {
  email_input : string;
  password_input : string;
  version_combo : ade;
  result_data : option login_data
}.

(** What the user does in the dialog. *)
Inductive gesture : Type :=
| type_email (s : string)
| type_password (s : string)
| choose_version (v : ade)
| click_authorize
| click_cancel.

(** [LoginDialog.__init__]: empty fields, "ADE 3.0" current. *)
Definition LoginDialog_init : LoginDialog := {|
  email_input := "";
  password_input := "";
  version_combo := ADE_3_0;
  result_data := None
|}.

(** [LoginDialog.accept]; the boolean tells whether [QDialog.accept] was
    reached, which closes the dialog. *)
Definition accept (d : LoginDialog) : LoginDialog * list ui_event * bool :=
  let email := strip (email_input d) in
  let password := password_input d in
  if String.eqb email "" || String.eqb password "" then
    (d, [MessageBox warning "Error" "Please enter email and password"], false)
  else
    ({| email_input := email_input d;
        password_input := password_input d;
        version_combo := version_combo d;
        result_data := Some {| type := "adobe"; email := email;
                               password := password;
                               version := currentData (version_combo d) |} |},
     [], true).

(** [dialog.exec_()]: the dialog takes the gestures until it is closed;
    the boolean is [== QDialog.Accepted].  Gestures that run out without a
    click stand for closing the window, which rejects. *)
Fixpoint exec_ (gs : list gesture) (d : LoginDialog)
  : bool * LoginDialog * list ui_event :=
  match gs with
  | [] => (false, d, [])
  | type_email s :: gs' =>
      exec_ gs' {| email_input := s; password_input := password_input d;
                   version_combo := version_combo d;
                   result_data := result_data d |}
  | type_password s :: gs' =>
      exec_ gs' {| email_input := email_input d; password_input := s;
                   version_combo := version_combo d;
                   result_data := result_data d |}
  | choose_version v :: gs' =>
      exec_ gs' {| email_input := email_input d;
                   password_input := password_input d;
                   version_combo := v;
                   result_data := result_data d |}
  | click_authorize :: gs' =>
      match accept d with
      | (d', ev, true) => (true, d', ev)
      | (d', ev, false) =>
          match exec_ gs' d' with
          | (r, d'', ev') => (r, d'', ev ++ ev')
          end
      end
  | click_cancel :: _ => (false, d, [])
  end.

(** ** The main window *)

(** What the window asks of the desktop while one handler runs. *)
Record Desktop : Type := {
  (** what the user does in the login dialog *)
  gestures : list gesture;
  (** the answer of [QFileDialog.getOpenFileName], "" when cancelled *)
  getOpenFileName : string;
  (** the answer of [QFileDialog.getSaveFileName] for a proposed path *)
  getSaveFileName : string → string;
  (** [Path(p).stat().st_mtime] *)
  st_mtime : string → Z
}.

Record MainWindow : Type := {
  key_file : option string;
  status_label : string;
  process_btn : bool;
  progress_bar : bool;
  progress_maximum : Z;
  log_text : list string;
  current_acsm_path : option string;
  worker : option WorkerThread
}.

(** A handler: the window before, the window after and what was shown and
    started, in order. *)
Definition W (A : Type) : Type := MainWindow → A * MainWindow * list ui_event.

Definition ret_W {A} (a : A) : W A := λ w, (a, w, []).

Definition bind_W {A B} (f : A → W B) (m : W A) : W B := λ w,
  match m w with
  | (a, w1, e1) =>
      match f a w1 with
      | (r, w2, e2) => (r, w2, e1 ++ e2)
      end
  end.

#[global] Instance W_ret : MRet W := @ret_W.
#[global] Instance W_bind : MBind W := @bind_W.

Definition show (ev : ui_event) : W unit := λ w, (tt, w, [ev]).

Definition set_key_file (k : option string) : W unit := λ w,
  (tt, {| key_file := k; status_label := status_label w;
          process_btn := process_btn w; progress_bar := progress_bar w;
          progress_maximum := progress_maximum w; log_text := log_text w;
          current_acsm_path := current_acsm_path w; worker := worker w |}, []).

(** [self.status_label.setText(t)] *)
Definition status_setText (t : string) : W unit := λ w,
  (tt, {| key_file := key_file w; status_label := t;
          process_btn := process_btn w; progress_bar := progress_bar w;
          progress_maximum := progress_maximum w; log_text := log_text w;
          current_acsm_path := current_acsm_path w; worker := worker w |}, []).

(** [self.process_btn.setEnabled(on)] *)
Definition process_setEnabled (on : bool) : W unit := λ w,
  (tt, {| key_file := key_file w; status_label := status_label w;
          process_btn := on; progress_bar := progress_bar w;
          progress_maximum := progress_maximum w; log_text := log_text w;
          current_acsm_path := current_acsm_path w; worker := worker w |}, []).

(** [self.progress_bar.setVisible(on)] *)
Definition progress_setVisible (on : bool) : W unit := λ w,
  (tt, {| key_file := key_file w; status_label := status_label w;
          process_btn := process_btn w; progress_bar := on;
          progress_maximum := progress_maximum w; log_text := log_text w;
          current_acsm_path := current_acsm_path w; worker := worker w |}, []).

(** [self.progress_bar.setMaximum(n)] *)
Definition progress_setMaximum (n : Z) : W unit := λ w,
  (tt, {| key_file := key_file w; status_label := status_label w;
          process_btn := process_btn w; progress_bar := progress_bar w;
          progress_maximum := n; log_text := log_text w;
          current_acsm_path := current_acsm_path w; worker := worker w |}, []).

Definition set_current_acsm_path (p : string) : W unit := λ w,
  (tt, {| key_file := key_file w; status_label := status_label w;
          process_btn := process_btn w; progress_bar := progress_bar w;
          progress_maximum := progress_maximum w; log_text := log_text w;
          current_acsm_path := Some p; worker := worker w |}, []).

(** [self.worker = worker; worker.start()], the worker's [finished] being
    connected to [slot]. *)
Definition start (t : WorkerThread) (slot : receiver) : W unit := λ w,
  (tt, {| key_file := key_file w; status_label := status_label w;
          process_btn := process_btn w; progress_bar := progress_bar w;
          progress_maximum := progress_maximum w; log_text := log_text w;
          current_acsm_path := current_acsm_path w; worker := Some t |},
   [Start t slot]).

(** [MainWindow.log] (lines 265-271); the scrolling is not modelled. *)
Definition log (message : string) : W unit := λ w,
  (tt, {| key_file := key_file w; status_label := status_label w;
          process_btn := process_btn w; progress_bar := progress_bar w;
          progress_maximum := progress_maximum w;
          log_text := log_text w ++ [message];
          current_acsm_path := current_acsm_path w; worker := worker w |}, []).

Section main_window.
Context (env : Env) (desk : Desktop) (fs : fsys).

(** [authorize_adobe] (lines 108-118) *)
Definition authorize_adobe (email password : string) (version : Z) : W unit :=
  log "Starting authorization...";;
  status_setText "Authorizing...";;
  process_setEnabled false;;
  start {| task_type := "login";
           args := [PStr email; PStr password; PInt version] |}
        to_authorization_complete.

(** [show_login_dialog] (lines 100-106) *)
Definition show_login_dialog : W unit :=
  show LoginDialogShown;;
  match exec_ (gestures desk) LoginDialog_init with
  | (accepted, dialog, ev) =>
      (λ w, (tt, w, ev));;
      if accepted then
        match result_data dialog with
        | Some data =>
            if String.eqb (type data) "adobe" then
              authorize_adobe (email data) (password data) (version data)
            else mret tt
        | None => mret tt
        end
      else mret tt
  end.

(** [check_authorization] (lines 86-98) *)
Definition check_authorization : W unit :=
  let key_files := glob (config_dir env) "adobekey" ".der" fs in
  match key_files with
  | k :: _ =>
      set_key_file (Some k);;
      log ("Found authorization: " +:+ path_name k);;
      status_setText ("Authorized: " +:+ path_name k);;
      process_setEnabled true
  | [] =>
      log "No authorization found. Please authorize first.";;
      status_setText "Not authorized";;
      process_setEnabled false;;
      show_login_dialog
  end.

(** [on_authorization_complete] (lines 120-130) *)
Definition on_authorization_complete (success : bool) (message : string) : W unit :=
  if success then
    log message;;
    status_setText message;;
    check_authorization;;
    show (MessageBox information "Success" message)
  else
    log message;;
    status_setText "Authorization failed";;
    show (MessageBox critical "Error" message).

(** [on_process_complete] (lines 132-144) *)
Definition on_process_complete (success : bool) (message : string) : W unit :=
  progress_setVisible false;;
  process_setEnabled true;;
  if success then
    log message;;
    status_setText "Ready";;
    show (MessageBox information "Success" message)
  else
    log message;;
    status_setText "Processing failed";;
    show (MessageBox critical "Error" message).

(** [on_acsm_fulfilled] (lines 146-197) *)
Definition on_acsm_fulfilled (success : bool) (message : string) : W unit :=
  if negb success then
    progress_setVisible false;;
    process_setEnabled true;;
    log message;;
    status_setText "Processing failed";;
    show (MessageBox critical "Error" message)
  else
    log message;;
    let epub_files :=
      sorted_desc (st_mtime desk) (glob (config_dir env) "" ".epub" fs) in
    match epub_files with
    | [] =>
        progress_setVisible false;;
        process_setEnabled true;;
        log "Error: Could not find fulfilled EPUB file";;
        status_setText "Processing failed";;
        show (MessageBox critical "Error" "Could not find fulfilled EPUB file")
    | fulfilled_epub :: _ =>
        show (SaveFileName "Save fulfilled EPUB as" fulfilled_epub
                           "EPUB Files (*.epub)");;
        let output_path := getSaveFileName desk fulfilled_epub in
        if String.eqb output_path "" then
          progress_setVisible false;;
          process_setEnabled true;;
          status_setText "Ready"
        else
          log ("Decrypting to: " +:+ output_path);;
          status_setText "Decrypting EPUB...";;
          key ← (λ w, (key_file w, w, []));
          start {| task_type := "decrypt";
                   args := [PStr fulfilled_epub; PStr (str_path key);
                            PStr output_path] |}
                to_process_complete
    end.

(** [process_acsm] (lines 224-239) *)
Definition process_acsm (acsm_path : string) : W unit :=
  log ("Processing ACSM: " +:+ path_name acsm_path);;
  status_setText "Processing ACSM...";;
  progress_setVisible true;;
  progress_setMaximum 0;;
  process_setEnabled false;;
  set_current_acsm_path acsm_path;;
  key ← (λ w, (key_file w, w, []));
  start {| task_type := "fulfill";
           args := [PStr (path_str env acsm_path); PStr (str_path key)] |}
        to_acsm_fulfilled.

(** [process_epub] (lines 241-263) *)
Definition process_epub (epub_path : string) : W unit :=
  let proposed := path_stem epub_path +:+ "_decrypted.epub" in
  show (SaveFileName "Save decrypted EPUB as" proposed "EPUB Files (*.epub)");;
  let output_path := getSaveFileName desk proposed in
  if String.eqb output_path "" then mret tt
  else
    log ("Processing EPUB: " +:+ path_name epub_path);;
    status_setText "Decrypting EPUB...";;
    progress_setVisible true;;
    progress_setMaximum 0;;
    process_setEnabled false;;
    key ← (λ w, (key_file w, w, []));
    start {| task_type := "decrypt";
             args := [PStr (path_str env epub_path); PStr (str_path key);
                      PStr output_path] |}
          to_process_complete.

(** [process_file] (lines 199-222) *)
Definition process_file : W unit :=
  key ← (λ w, (key_file w, w, []));
  match key with
  | None =>
      show (MessageBox warning "Error" "No key file found. Please authorize first.")
  | Some _ =>
      show (OpenFileName "Select ACSM or EPUB file" ""
                         "ACSM/EPUB Files (*.acsm *.epub);;All Files (*)");;
      let file_path := getOpenFileName desk in
      if String.eqb file_path "" then mret tt
      else if String.eqb (lower (path_suffix file_path)) ".acsm" then
        process_acsm file_path
      else if String.eqb (lower (path_suffix file_path)) ".epub" then
        process_epub file_path
      else show (MessageBox warning "Error" "Unsupported file format")
  end.

End main_window.

(** The window as [init_ui] leaves it (lines 40-84): status "Idle", progress
    bar hidden, buttons enabled, empty log. *)
Definition init_ui : MainWindow := {|
  key_file := None;
  status_label := "Idle";
  process_btn := true;
  progress_bar := false;
  progress_maximum := 100;
  log_text := [];
  current_acsm_path := None;
  worker := None
|}.

(** [MainWindow.__init__] (lines 28-38): the configuration directory is made
    if need be, then the authorization is looked for. *)
Definition MainWindow_init (env : Env) (desk : Desktop) (s : fsys)
  : res (MainWindow * list ui_event) * fsys :=
  match mkdir_exist_ok (config_dir env) s with
  | (Ret _, s', _) =>
      match check_authorization env desk s' init_ui with
      | (_, w, ev) => (Ret (w, ev), s')
      end
  | (Raise e, s', _) => (Raise e, s')
  end.
(** The task fits its workflow and its slot. *)
Definition fits (t : WorkerThread) (slot : receiver) : bool :=
  match t, slot with
  | {| task_type := ty; args := [PStr _; PStr _; PInt _] |},
    to_authorization_complete => String.eqb ty "login"
  | {| task_type := ty; args := [PStr _; PStr _] |},
    to_acsm_fulfilled => String.eqb ty "fulfill"
  | {| task_type := ty; args := [PStr _; PStr _; PStr _] |},
    to_process_complete => String.eqb ty "decrypt"
  | _, _ => false
  end.

(** The workers a handler has started. *)
Definition started (ev : list ui_event) : list (WorkerThread * receiver) :=
  omap (λ e, match e with Start t r => Some (t, r) | _ => None end) ev.

(** At most one worker, and a fitting one. *)
Definition starts_well (ev : list ui_event) : bool :=
  match started ev with
  | [] => true
  | [(t, r)] => fits t r
  | _ => false
  end.

(** Runs a handler on a window given by its fields. *)
Ltac run_W :=
  cbv beta iota zeta delta
    [mbind W_bind bind_W mret W_ret ret_W show set_key_file status_setText
     process_setEnabled progress_setVisible progress_setMaximum
     set_current_acsm_path start log authorize_adobe show_login_dialog
     check_authorization on_authorization_complete on_process_complete
     on_acsm_fulfilled process_acsm process_epub process_file negb
     key_file status_label process_btn progress_bar progress_maximum
     log_text current_acsm_path worker];
  cbn beta iota zeta delta [app fst snd].

Ltac open_window w :=
  destruct w as [kf st pb pg pm lg ca wk];
  cbn [key_file status_label process_btn progress_bar progress_maximum
       log_text current_acsm_path worker] in *.

(** ** A session at the desk, for examples *)

Module Session.

(** A user who gives [gs] to the login dialog, picks [opened] in the open
    dialog and answers every save dialog with [saved]; "Moby.epub" is the
    newest file of the configuration directory. *)
Definition desk (gs : list gesture) (opened saved : string) : Desktop := {|
  gestures := gs;
  getOpenFileName := opened;
  getSaveFileName := λ _, saved;
  st_mtime := λ p, if String.eqb p "/home/u/.deacsm/Moby.epub" then 20 else 10
|}.

(** The user signs in with spaces around the address. *)
Definition signs_in : list gesture :=
  [type_email " reader@example.org "; type_password "secret"; click_authorize].

(** The window of an authorized user. *)
Definition authorized : MainWindow := {|
  key_file := Some "/home/u/.deacsm/adobekey.der";
  status_label := "Authorized: adobekey.der";
  process_btn := true;
  progress_bar := false;
  progress_maximum := 100;
  log_text := ["Found authorization: adobekey.der"];
  current_acsm_path := None;
  worker := None
|}.

(** A configuration directory with the key and two fulfilled books. *)
Definition shelf : fsys := {|
  cwd := "/home/u";
  dirs := {["/home/u"; "/home/u/.deacsm"]};
  files := <["/home/u/.deacsm/Old.epub" := Demo.epub]>
             (<["/home/u/.deacsm/Moby.epub" := Demo.epub]> (files Demo.machine))
|}.

End Session.

(** * Properties *)

(** ** Content sniffing *)

Lemma startswith_prefix (bs p : list byte) :
  startswith bs p = true ↔ p `prefix_of` bs.
Proof.
  revert bs. induction p as [|x p IH]; intros [|y bs]; simpl.
  - split; [intros _; apply prefix_nil | reflexivity].
  - split; [intros _; apply prefix_nil | reflexivity].
  - split; [discriminate | intros H; apply prefix_nil_inv in H; discriminate].
  - rewrite andb_true_iff, IH. split.
    + intros [Hxy Hp]. apply Byte.byte_dec_bl in Hxy as ->. by apply prefix_cons.
    + intros H. pose proof (prefix_cons_inv_1 _ _ _ _ H) as ->.
      split; [by apply Byte.byte_dec_lb | by apply prefix_cons_inv_2 in H].
Qed.

Lemma startswith_take (n : nat) (bs p : list byte) :
  (length p ≤ n)%nat → startswith (take n bs) p = startswith bs p.
Proof.
  revert n bs. induction p as [|x p IH]; intros n bs Hn.
  - by destruct (take n bs), bs.
  - destruct n as [|n]; simpl in Hn; [lia|].
    destruct bs as [|y bs]; simpl; [reflexivity|].
    f_equal. apply IH. lia.
Qed.

(** What [f.read(10)] returns decides as the whole content would. *)
Lemma sniff_take (bs : list byte) : sniff (take 10 bs) = sniff bs.
Proof.
  unfold sniff. rewrite !startswith_take; [reflexivity | | ]; simpl; lia.
Qed.

Lemma sniff_epub (bs : list byte) :
  b "PK" `prefix_of` bs → sniff (take 10 bs) = ".epub".
Proof.
  intros H. rewrite sniff_take. unfold sniff.
  apply startswith_prefix in H. by rewrite H.
Qed.

Lemma sniff_pdf (bs : list byte) :
  b "%PDF" `prefix_of` bs → sniff (take 10 bs) = ".pdf".
Proof. intros [k ->]. by rewrite sniff_take. Qed.

(** C3. Classification is a function of the bytes alone: content that
    starts with the 2-byte container magic "PK" gets ".epub", content that
    starts with the 4-byte document magic "%PDF" gets ".pdf", and all other
    content gets ".bin"; the ten bytes the worker reads classify as the
    whole content does. *)
Theorem sniff_by_magic (book_content : list byte) :
  length (b "PK") = 2%nat ∧ length (b "%PDF") = 4%nat ∧
  sniff (take 10 book_content) = sniff book_content ∧
  (b "PK" `prefix_of` book_content → sniff book_content = ".epub") ∧
  (b "%PDF" `prefix_of` book_content → sniff book_content = ".pdf") ∧
  (¬ b "PK" `prefix_of` book_content → ¬ b "%PDF" `prefix_of` book_content →
   sniff book_content = ".bin").
Proof.
  split; [reflexivity|]. split; [reflexivity|]. split; [apply sniff_take|].
  unfold sniff.
  destruct (startswith book_content (b "PK")) eqn:Hpk;
    destruct (startswith book_content (b "%PDF")) eqn:Hpdf.
  - apply startswith_prefix in Hpk as [k1 ->]. discriminate Hpdf.
  - split; [reflexivity|]. split.
    + intros H%startswith_prefix. congruence.
    + intros H. apply startswith_prefix in Hpk. contradiction.
  - apply startswith_prefix in Hpdf. split; [|split]; [|reflexivity|].
    + intros H%startswith_prefix. congruence.
    + intros _ H. contradiction.
  - split; [|split]; [| |reflexivity].
    + intros H%startswith_prefix. congruence.
    + intros H%startswith_prefix. congruence.
Qed.

Lemma sniff_by_magic_witness :
  sniff (b "PK" ++ b "xx") = ".epub" ∧ sniff (b "%PDF-1.7") = ".pdf" ∧
  sniff (b "GIF89a") = ".bin".
Proof.
  split; [|split].
  - apply (sniff_by_magic (b "PK" ++ b "xx")). by exists (b "xx").
  - apply (sniff_by_magic (b "%PDF-1.7")). by exists (b "-1.7").
  - apply (sniff_by_magic (b "GIF89a")); intros [k Hk]; discriminate Hk.
Defined.

(** ** The decrypt workflow *)

(** C10. When the import of the container-decryption module failed, the
    decrypt workflow does one thing only: it emits the terminal failure
    "ineptepub module not available".  It reads no file, calls no
    collaborator and leaves the file system as it was. *)
Theorem decrypt_without_module (env : Env) (epub_path key_path output_path : string)
    (s : fsys) :
  decryptBook env = None →
  _decrypt_epub env epub_path key_path output_path s =
    (Ret tt, s, [(cwd s, Finished false "ineptepub module not available")]).
Proof. intros H. unfold _decrypt_epub. by rewrite H. Qed.

Lemma decrypt_without_module_witness :
  _decrypt_epub (Demo.env Demo.reply Demo.epub 200 true None)
                "Moby.epub" ".deacsm/adobekey.der" "out.epub" Demo.machine =
    (Ret tt, Demo.machine,
     [("/home/u", Finished false "ineptepub module not available")]).
Proof.
  apply (decrypt_without_module (Demo.env Demo.reply Demo.epub 200 true None)).
  reflexivity.
Defined.

(** C2. Once the key is read, the result code of [decryptBook] decides the
    one terminal notification, whatever the key, the source and the
    destination: 0 gives success, 1 the failure "EPUB is DRM-free", 2 the
    failure "Failed to decrypt: wrong key", and any other code a failure
    that names the code. *)
Theorem decrypt_maps_result_code (env : Env) (epub_path key_path output_path : string)
    (s : fsys) (decrypt : list byte → string → string → answer Z)
    (key : file) (result : Z) (wr : writes) :
  decryptBook env = Some decrypt →
  files s !! resolve (cwd s) key_path = Some key →
  decrypt (file_bytes env key) epub_path output_path = (Ret result, wr) →
  ∃ ok msg,
    _decrypt_epub env epub_path key_path output_path s =
      (Ret tt,
       Fsys (cwd s) (dirs s) (apply_writes (cwd s) wr (files s)),
       [(cwd s, Progress "Reading key file...");
        (cwd s, FsOp (op_read key_path None));
        (cwd s, Progress "Decrypting EPUB...");
        (cwd s, Call (c_decryptBook (file_bytes env key) epub_path output_path));
        (cwd s, Finished ok msg)]) ∧
    (result = 0 → ok = true ∧ msg = "Successfully decrypted to: " +:+ output_path) ∧
    (result = 1 → ok = false ∧ msg = "EPUB is DRM-free") ∧
    (result = 2 → ok = false ∧ msg = "Failed to decrypt: wrong key") ∧
    (result ≠ 0 → result ≠ 1 → result ≠ 2 →
     ok = false ∧ msg = "Decryption failed with error code " +:+ str_int result).
Proof.
  intros Hmod Hkey Hres. unfold _decrypt_epub. rewrite Hmod. run_M.
  rewrite Hkey. run_M. rewrite Hres. run_M.
  destruct (Z.eqb_spec result 0) as [->|H0]; run_M.
  { eexists _, _. split; [reflexivity|]. repeat split; congruence. }
  destruct (Z.eqb_spec result 1) as [->|H1]; run_M.
  { eexists _, _. split; [reflexivity|]. repeat split; congruence. }
  destruct (Z.eqb_spec result 2) as [->|H2]; run_M.
  { eexists _, _. split; [reflexivity|]. repeat split; congruence. }
  eexists _, _. split; [reflexivity|]. repeat split; congruence.
Qed.

Lemma decrypt_maps_result_code_witness :
  ∃ ok msg,
    signals (_decrypt_epub (Demo.env Demo.reply Demo.epub 200 true (Some 7))
               "Moby.epub" ".deacsm/adobekey.der" "out.epub" Demo.machine).2 =
      [Progress "Reading key file..."; Progress "Decrypting EPUB...";
       Finished ok msg] ∧
    ok = false ∧ msg = "Decryption failed with error code 7".
Proof.
  destruct (decrypt_maps_result_code
              (Demo.env Demo.reply Demo.epub 200 true (Some 7))
              "Moby.epub" ".deacsm/adobekey.der" "out.epub" Demo.machine
              (λ _ _ dst, (Ret 7, [(dst, File [] (Some []))]))
              (File (b "key") None) 7 [("out.epub", File [] (Some []))]
              eq_refl eq_refl eq_refl)
    as (ok & msg & Hrun & _ & _ & _ & Hother).
  exists ok, msg. rewrite Hrun. split; [reflexivity|].
  apply Hother; discriminate.
Defined.

(** C6. When the key file cannot be read, the decrypt workflow ends with
    the failure "Failed to read key file: ...", which is none of the
    messages of the decryption step, and [decryptBook] is not called. *)
Theorem decrypt_unreadable_key (env : Env) (epub_path key_path output_path : string)
    (s : fsys) (decrypt : list byte → string → string → answer Z) :
  decryptBook env = Some decrypt →
  files s !! resolve (cwd s) key_path = None →
  ∃ tr msg,
    _decrypt_epub env epub_path key_path output_path s = (Ret tt, s, tr) ∧
    signals tr = [Progress "Reading key file..."; Finished false msg] ∧
    calls tr = [] ∧
    msg = "Failed to read key file: " +:+ no_such_file key_path ∧
    ∀ (result : Z) (e : string),
      msg ∉ ["Successfully decrypted to: " +:+ output_path;
             "EPUB is DRM-free";
             "Failed to decrypt: wrong key";
             "Decryption failed with error code " +:+ str_int result;
             "Decryption error: " +:+ e].
Proof.
  intros Hmod Hkey. unfold _decrypt_epub. rewrite Hmod. run_M.
  rewrite Hkey. run_M.
  eexists _, _. split; [reflexivity|]. repeat split.
  intros result e. rewrite !not_elem_of_cons. simpl.
  repeat split; try discriminate. apply not_elem_of_nil.
Qed.

Lemma decrypt_unreadable_key_witness :
  ∃ tr msg,
    _decrypt_epub (Demo.env Demo.reply Demo.epub 200 true (Some 0))
                  "Moby.epub" "lost.der" "out.epub" Demo.machine =
      (Ret tt, Demo.machine, tr) ∧
    signals tr = [Progress "Reading key file..."; Finished false msg] ∧
    calls tr = [].
Proof.
  destruct (decrypt_unreadable_key
              (Demo.env Demo.reply Demo.epub 200 true (Some 0))
              "Moby.epub" "lost.der" "out.epub" Demo.machine
              (λ _ _ dst, (Ret 0, [(dst, File [] (Some []))]))
              eq_refl eq_refl)
    as (tr & msg & Hrun & Hsig & Hcalls & _).
  by exists tr, msg.
Defined.

(** ** Traces and the file system *)

Lemma signals_app (t1 t2 : trace) : signals (t1 ++ t2) = signals t1 ++ signals t2.
Proof. apply omap_app. Qed.

Lemma calls_app (t1 t2 : trace) : calls (t1 ++ t2) = calls t1 ++ calls t2.
Proof. apply omap_app. Qed.

Lemma fsops_app (t1 t2 : trace) : fsops (t1 ++ t2) = fsops t1 ++ fsops t2.
Proof. apply omap_app. Qed.

Lemma contains_suffix (pre s : string) : contains s (pre +:+ s).
Proof.
  exists pre, "". f_equal. induction s as [|a s IH]; [reflexivity|].
  exact (f_equal (String a) IH).
Qed.

(** Collaborators write files, they do not delete them. *)
Lemma apply_writes_is_Some (d : string) (wr : writes) (m : gmap string file)
    (k : string) :
  is_Some (m !! k) → is_Some (apply_writes d wr m !! k).
Proof.
  unfold apply_writes. revert m.
  induction wr as [|[p f] wr IH]; intros m Hm; simpl; [done|].
  apply IH. destruct (decide (resolve d p = k)) as [->|Hne].
  - rewrite lookup_insert_eq. eauto.
  - by rewrite lookup_insert_ne.
Qed.

(** ** The fulfillment workflow: negotiation *)

(** What [negotiate] leaves behind: the directories are those it found, it
    has moved to the configuration directory when it returns, it has
    reported one progress message when it returns a download to do, and
    the only file operation it performs is the change of directory. *)
Lemma negotiate_frame (env : Env) (acsm_path : string) (s : fsys)
    (r : res (option (option string * string * option string)))
    (s1 : fsys) (tr1 : trace) :
  negotiate env acsm_path s = (r, s1, tr1) →
  dirs s1 = dirs s ∧
  (∀ v, r = Ret v → cwd s1 = config_dir env) ∧
  (∀ v, r = Ret (Some v) → signals tr1 = [Progress "Fulfilling book..."]) ∧
  Forall (λ o, ∃ p, o.2 = op_chdir p) (fsops tr1).
Proof.
  unfold negotiate, parse_reply, get_book_name. run_M.
  repeat (destruct_match; run_M).
  all: intros [= <- <- <-]; read_trace.
  all: split; [reflexivity|split; [try discriminate; reflexivity|]].
  all: split; [try discriminate; reflexivity|].
  all: repeat constructor; eauto.
Qed.

(** A reply without the download URL is a parse failure. *)
Lemma parse_reply_without_src (resp : element) (s : fsys) :
  find src_path resp = None →
  parse_reply resp s =
    (Ret None, s, [(cwd s, Finished false "Failed to parse fulfillment response")]).
Proof. intros H. unfold parse_reply. run_M. by rewrite H. Qed.

(** A reply without metadata, or without a title in it, is called "Book". *)
Lemma get_book_name_fallback (resp : element) (s : fsys) :
  find metadata_path resp = None ∨
  (∃ m, find metadata_path resp = Some m ∧ find [adDC "title"] m = None) →
  get_book_name resp s = (Ret (Some "Book"), s, []).
Proof.
  unfold get_book_name. run_M. intros [H | (m & H & Ht)]; rewrite H; run_M.
  - reflexivity.
  - by rewrite Ht.
Qed.

Lemma extra_tag (e e' : element) : extra e e' → tag e' = tag e.
Proof. by intros []. Qed.

Lemma extra_text (e e' : element) : extra e e' → text e' = text e.
Proof. by intros []. Qed.

Lemma alike_tag (e e' : element) : alike e e' → tag e' = tag e.
Proof.
  induction 1 as [|e1 e2 e3 H12 _ IH]; [reflexivity|].
  rewrite IH. by apply extra_tag.
Qed.

Lemma alike_text (e e' : element) : alike e e' → text e' = text e.
Proof.
  induction 1 as [|e1 e2 e3 H12 _ IH]; [reflexivity|].
  rewrite IH. by apply extra_text.
Qed.

Lemma Forall2_alike_refl (l : list element) : Forall2 alike l l.
Proof. apply Forall_Forall2_diag, Forall_forall. intros. apply rtc_refl. Qed.

Lemma Forall2_alike_trans (l1 l2 l3 : list element) :
  Forall2 alike l1 l2 → Forall2 alike l2 l3 → Forall2 alike l1 l3.
Proof.
  intros H12. revert l3.
  induction H12; intros l3 H23; inversion H23; subst; constructor.
  - by etrans.
  - auto.
Qed.

Lemma filter_tag_alike (t : string) (l l' : list element) :
  Forall2 alike l l' →
  Forall2 alike (filter (λ c, tag c = t) l) (filter (λ c, tag c = t) l').
Proof.
  induction 1 as [|c c' l l' Hc _ IH]; [constructor|].
  rewrite !filter_cons, (alike_tag _ _ Hc).
  destruct (decide (tag c = t)); [by constructor | done].
Qed.

Lemma children_extra (t : string) (e e' : element) :
  t ∈ known_tags → extra e e' →
  Forall2 alike (filter (λ c, tag c = t) (children e))
                (filter (λ c, tag c = t) (children e')).
Proof.
  intros Ht [t0 x l1 l2 y Hy | t0 x l1 l2 c c' Hc]; cbn [children].
  - rewrite !filter_app, filter_cons.
    destruct (decide (tag y = t)) as [Heq|_]; [by rewrite Heq in Hy|].
    apply Forall2_alike_refl.
  - apply filter_tag_alike, Forall2_app; [apply Forall2_alike_refl|].
    constructor; [by apply rtc_once | apply Forall2_alike_refl].
Qed.

Lemma children_alike (t : string) (e e' : element) :
  t ∈ known_tags → alike e e' →
  Forall2 alike (filter (λ c, tag c = t) (children e))
                (filter (λ c, tag c = t) (children e')).
Proof.
  intros Ht. induction 1 as [|e1 e2 e3 H12 _ IH]; [apply Forall2_alike_refl|].
  eapply Forall2_alike_trans; [by apply children_extra | exact IH].
Qed.

Lemma select_child_alike (t : string) (ctx ctx' : list element) :
  t ∈ known_tags → Forall2 alike ctx ctx' →
  Forall2 alike (select_child t ctx) (select_child t ctx').
Proof.
  intros Ht. induction 1 as [|c c' ctx ctx' Hc _ IH]; [constructor|].
  unfold select_child. cbn [mbind list_bind].
  apply Forall2_app; [by apply children_alike | exact IH].
Qed.

Lemma iterfind_alike (path : list string) (ctx ctx' : list element) :
  Forall (λ t, t ∈ known_tags) path → Forall2 alike ctx ctx' →
  Forall2 alike (foldl (λ ctx t, select_child t ctx) ctx path)
                (foldl (λ ctx t, select_child t ctx) ctx' path).
Proof.
  intros Hpath. revert ctx ctx'.
  induction Hpath as [|t path Ht _ IH]; intros ctx ctx' Hctx; [exact Hctx|].
  cbn [foldl]. by apply IH, select_child_alike.
Qed.

(** Lookups see through extra unknown elements: what [find] returns on the
    richer document is what it returns on the plain one, up to extra
    unknown elements inside. *)
Lemma find_alike (path : list string) (e e' : element) :
  Forall (λ t, t ∈ known_tags) path → alike e e' →
  option_Forall2 alike (find path e) (find path e').
Proof.
  intros Hpath He. unfold find, iterfind.
  destruct (iterfind_alike path [e] [e'] Hpath) as [|a a' l l' Ha _].
  - by repeat constructor.
  - constructor.
  - by constructor.
Qed.

Lemma known_paths :
  Forall (λ t, t ∈ known_tags) src_path ∧
  Forall (λ t, t ∈ known_tags) licenseToken_path ∧
  Forall (λ t, t ∈ known_tags) metadata_path ∧
  Forall (λ t, t ∈ known_tags) [adDC "title"].
Proof.
  unfold src_path, licenseToken_path, metadata_path, known_tags.
  repeat split; repeat constructor; set_solver.
Qed.

(** A reply that parses still parses, to the same download URL, when
    unknown elements are added to it. *)
Lemma parse_reply_extra_elements (resp resp' : element) (s : fsys)
    (url : option string) (token : option element) :
  alike resp resp' →
  parse_reply resp s = (Ret (Some (url, token)), s, []) →
  ∃ token', parse_reply resp' s = (Ret (Some (url, token')), s, []) ∧
            option_Forall2 alike token token'.
Proof.
  intros Hal. destruct known_paths as (Hsrc & Htok & _).
  pose proof (find_alike _ _ _ Hsrc Hal) as H1.
  pose proof (find_alike _ _ _ Htok Hal) as H2.
  unfold parse_reply. run_M.
  destruct H1 as [n n' Hn|]; run_M; [|discriminate].
  intros [= <- <-]. eexists. split; [|exact H2].
  by rewrite (alike_text _ _ Hn).
Qed.

(** The title survives the extra elements as well. *)
Lemma get_book_name_extra_elements (resp resp' : element) (s : fsys) :
  alike resp resp' → get_book_name resp' s = get_book_name resp s.
Proof.
  intros Hal. destruct known_paths as (_ & _ & Hmeta & Htitle).
  unfold get_book_name. run_M.
  destruct (find_alike _ _ _ Hmeta Hal) as [m m' Hm|]; run_M; [|reflexivity].
  destruct (find_alike _ _ _ Htitle Hm) as [t t' Ht|]; run_M; [|reflexivity].
  by rewrite (alike_text _ _ Ht).
Qed.

(** At the level of the run: a reply without the download URL ends it with
    the parse failure. *)
Lemma missing_src_is_a_parse_failure (env : Env) (acsm_path key_path : string)
    (s : fsys) (replyData : string) (wr0 wr : writes) (resp : element) :
  cwd s ∈ dirs s →
  config_dir env ∈ dirs s →
  update_account_path env (config_dir env) = (Ret tt, wr0) →
  fulfill env (path_str env acsm_path) = (Ret (true, replyData), wr) →
  fromstring env replyData = Ret resp →
  find src_path resp = None →
  signals (_fulfill_acsm env acsm_path key_path s).2 =
    [Progress "Reading ACSM file..."; Progress "Fulfilling book...";
     Finished false "Failed to parse fulfillment response"].
Proof.
  intros Hcwd Hcfg Hupd Hful Hxml Hsrc.
  unfold_worker. run_M.
  destruct (decide (cwd s ∈ dirs s)) as [_|]; [|contradiction].
  destruct (decide (config_dir env ∈ dirs s)) as [_|]; [|contradiction].
  run_M. rewrite Hupd, Hful. run_M. rewrite Hxml. run_M. rewrite Hsrc. run_M.
  destruct (decide (cwd s ∈ dirs s)) as [_|]; [|contradiction].
  reflexivity.
Qed.

(** A reply with an unknown element next to [fulfillmentResult] and another
    next to [src]. *)
Example reply_richer_alike : alike Demo.reply Demo.reply_richer.
Proof.
  eapply rtc_l.
  - apply (extra_here _ _ [] _ (Element (adNS "notice") (Some "new") [])).
    unfold known_tags. cbn [tag]. rewrite !not_elem_of_cons.
    repeat split; try discriminate. apply not_elem_of_nil.
  - apply rtc_once.
    apply (extra_below _ _ [_] []).
    apply (extra_below _ _ [_] []).
    apply (extra_here _ _ [_] _ (Element (adNS "expiry") (Some "never") [])).
    unfold known_tags. cbn [tag]. rewrite !not_elem_of_cons.
    repeat split; try discriminate. apply not_elem_of_nil.
Qed.

(** It is fulfilled as the plain reply is. *)
Example reply_richer_run :
  signals (_fulfill_acsm (Demo.env Demo.reply_richer Demo.epub 200 true None)
                         "book.acsm" "adobekey.der" Demo.machine).2 =
  signals (_fulfill_acsm (Demo.env Demo.reply Demo.epub 200 true None)
                         "book.acsm" "adobekey.der" Demo.machine).2.
Proof. reflexivity. Qed.

(** C1. A reply that has its download URL but no license token is not
    treated as a parse failure.  The lookup of the token returns [None]
    without raising, [parse_reply] succeeds with that [None], and whatever
    the collaborators then do, the run never emits "Failed to parse
    fulfillment response".  (A reply without the download URL is a parse
    failure, extra unknown elements change nothing and a missing title
    becomes "Book": see the lemmas above.) *)
Theorem missing_token_is_not_a_parse_failure (env : Env) (acsm_path key_path : string)
    (s : fsys) (replyData : string) (wr : writes) (resp src : element) :
  fulfill env (path_str env acsm_path) = (Ret (true, replyData), wr) →
  fromstring env replyData = Ret resp →
  find src_path resp = Some src →
  find licenseToken_path resp = None →
  parse_reply resp s = (Ret (Some (text src, None)), s, []) ∧
  Finished false "Failed to parse fulfillment response"
    ∉ signals (_fulfill_acsm env acsm_path key_path s).2.
Proof.
  intros Hful Hxml Hsrc Htok. split.
  { unfold parse_reply. run_M. by rewrite Hsrc, Htok. }
  unfold_worker. run_M. rewrite Hful. run_M. rewrite Hxml. run_M.
  rewrite Hsrc, Htok. run_M.
  repeat (destruct_match; try absurd_decision; run_M).
  all: read_trace; rewrite !not_elem_of_cons.
  all: repeat split; try discriminate; apply not_elem_of_nil.
Qed.

Lemma missing_token_is_not_a_parse_failure_witness :
  signals (_fulfill_acsm (Demo.env Demo.reply_no_token Demo.epub 200 true None)
                         "book.acsm" "adobekey.der" Demo.machine).2 =
    [Progress "Reading ACSM file..."; Progress "Fulfilling book...";
     Finished false "Error: Type 'NoneType' cannot be serialized."] ∧
  Finished false "Failed to parse fulfillment response"
    ∉ signals (_fulfill_acsm (Demo.env Demo.reply_no_token Demo.epub 200 true None)
                             "book.acsm" "adobekey.der" Demo.machine).2.
Proof.
  split; [reflexivity|].
  eapply (missing_token_is_not_a_parse_failure
            (Demo.env Demo.reply_no_token Demo.epub 200 true None)
            "book.acsm" "adobekey.der" Demo.machine); reflexivity.
Defined.

(** ** Paths *)

Lemma dirname_app_None (a c : string) :
  dirname a = None → dirname c = None → dirname (a +:+ c) = None.
Proof.
  intros Ha Hc. induction a as [|x a IH]; [exact Hc|].
  cbn [dirname] in Ha. change (String x a +:+ c) with (String x (a +:+ c)).
  cbn [dirname]. destruct (dirname a); [discriminate|].
  rewrite (IH eq_refl). exact Ha.
Qed.

Lemma dirname_child (d n : string) :
  dirname n = None → dirname (d +:+ "/" +:+ n) = Some d.
Proof.
  intros Hn. induction d as [|x d IH].
  - change ("" +:+ "/" +:+ n) with (String "/" n). cbn [dirname]. by rewrite Hn.
  - change (String x d +:+ "/" +:+ n) with (String x (d +:+ "/" +:+ n)).
    cbn [dirname]. by rewrite IH.
Qed.

(** A name without "/" is looked up in the working directory. *)
Lemma resolve_child (d n : string) :
  dirname n = None → resolve d n = d +:+ "/" +:+ n.
Proof.
  unfold resolve. destruct n as [|c n]; [reflexivity|].
  cbn [is_absolute dirname].
  destruct (Ascii.eqb_spec c "/") as [->|Hc].
  - destruct (dirname n); discriminate.
  - intros _. destruct c as [[] [] [] [] [] [] [] []]; try reflexivity.
    by destruct Hc.
Qed.

Lemma parent_exists_dirs (s s' : fsys) (q : string) :
  dirs s = dirs s' → parent_exists s q = parent_exists s' q.
Proof. unfold parent_exists. by intros ->. Qed.

(** In a directory that exists, a name without "/" can be given. *)
Lemma parent_exists_child (s : fsys) (d n : string) :
  d ∈ dirs s → dirname n = None → parent_exists s (resolve d n) = true.
Proof.
  intros Hd Hn. unfold parent_exists.
  rewrite (resolve_child _ _ Hn), (dirname_child _ _ Hn).
  destruct d; [reflexivity|]. by apply bool_decide_eq_true_2.
Qed.

(** [negotiate] returns only from the configuration directory. *)
Lemma negotiate_enters (env : Env) (acsm_path : string) (s : fsys)
    (v : option (option string * string * option string)) (s1 : fsys)
    (tr1 : trace) :
  negotiate env acsm_path s = (Ret v, s1, tr1) → config_dir env ∈ dirs s.
Proof.
  unfold negotiate. run_M.
  destruct (decide (config_dir env ∈ dirs s)) as [Hin|]; [done|discriminate].
Qed.

(** ** The fulfillment workflow: download and delivery *)

(** C5. When the download answers a status other than 200, the run ends
    with the failure "Download failed with error <status>", whose message
    contains the status; the temporary file is neither read (no
    classification) nor moved or renamed: the only file operations of the
    run are [getcwd] and the changes of directory. *)
Theorem download_refused (env : Env) (acsm_path key_path : string) (s : fsys)
    (url : option string) (rights title : string) (s1 : fsys) (tr1 : trace)
    (status : Z) (wr : writes) :
  cwd s ∈ dirs s →
  negotiate env acsm_path s = (Ret (Some (url, rights, Some title)), s1, tr1) →
  sendHTTPRequest_DL2FILE env url (title +:+ ".tmp") = (Ret status, wr) →
  status ≠ 200 →
  ∃ s' tr msg,
    _fulfill_acsm env acsm_path key_path s = (Ret tt, s', tr) ∧
    tr = [(cwd s, Progress "Reading ACSM file..."); (cwd s, FsOp op_getcwd)] ++ tr1 ++
         [(config_dir env, Progress "Downloading book...");
          (config_dir env, Call (c_sendHTTPRequest_DL2FILE url (title +:+ ".tmp")));
          (config_dir env, Finished false msg);
          (config_dir env, FsOp (op_chdir (cwd s)))] ∧
    msg = "Download failed with error " +:+ str_int status ∧
    contains (str_int status) msg ∧
    signals tr = [Progress "Reading ACSM file..."; Progress "Fulfilling book...";
                  Progress "Downloading book..."; Finished false msg] ∧
    Forall (λ o, o.2 = op_getcwd ∨ ∃ p, o.2 = op_chdir p) (fsops tr).
Proof.
  intros Hcwd Hneg Hdl Hne.
  destruct (negotiate_frame _ _ _ _ _ _ Hneg) as (Hdirs & Hcfg & Hsig & Hops).
  specialize (Hcfg _ eq_refl). specialize (Hsig _ eq_refl).
  unfold _fulfill_acsm, fulfill_body, download. run_M.
  destruct (decide (cwd s ∈ dirs s)) as [_|]; [|contradiction].
  rewrite Hneg. run_M. rewrite Hdl. run_M.
  destruct (Z.eqb_spec status 200) as [|_]; [contradiction|]. run_M.
  rewrite Hdirs, Hcfg. destruct (decide (cwd s ∈ dirs s)) as [_|]; [|contradiction].
  eexists _, _, _. split; [reflexivity|]. norm_app.
  split; [reflexivity|]. split; [reflexivity|]. split; [apply contains_suffix|].
  change (?a :: ?b :: tr1 ++ ?l) with ([a; b] ++ tr1 ++ l).
  rewrite !signals_app, !fsops_app, Hsig. read_trace.
  split; [reflexivity|].
  constructor; [by left|]. apply Forall_app. split.
  - eapply Forall_impl; [exact Hops|]. intros o Ho. by right.
  - constructor; [right; eauto | constructor].
Qed.

Lemma download_refused_witness :
  ∃ s' tr,
    _fulfill_acsm (Demo.env Demo.reply Demo.pdf 404 true None)
                  "book.acsm" "adobekey.der" Demo.machine = (Ret tt, s', tr) ∧
    signals tr = [Progress "Reading ACSM file..."; Progress "Fulfilling book...";
                  Progress "Downloading book...";
                  Finished false "Download failed with error 404"].
Proof.
  pose (E := Demo.env Demo.reply Demo.pdf 404 true None).
  pose (neg := negotiate E "book.acsm" Demo.machine).
  destruct (download_refused E "book.acsm" "adobekey.der" Demo.machine
              (Some "http://acs.example/book") "<rights/>" "Moby"
              neg.1.2 neg.2 404 [("Moby.tmp", Demo.pdf)])
    as (s' & tr & msg & Hrun & _ & -> & _ & Hsig & _).
  - cbn. set_solver.
  - reflexivity.
  - reflexivity.
  - discriminate.
  - exists s', tr. split; [exact Hrun | exact Hsig].
Defined.

(** C8. When the downloaded content starts with the container magic and
    its final name is not the name of a directory, what happens depends
    on [zipfile] alone.  When it refuses the content, the run ends with
    the failure "Error: ..." and the downloaded file is left under its
    final name as it came.  Otherwise the rights document is added to the
    archive as the member "META-INF/rights.xml", after the members that
    were there and with the bytes in front of the archive untouched, and
    the run ends with the success "Successfully fulfilled: <title>.epub";
    reading the archive by name then gives what the download gave, under
    every name but "META-INF/rights.xml", which now gives the rights
    document whether or not the download held a member of that name. *)
Theorem container_gets_rights (env : Env) (acsm_path key_path : string) (s : fsys)
    (url : option string) (rights title : string) (s1 : fsys) (tr1 : trace)
    (wr : writes) (content : file) :
  cwd s ∈ dirs s →
  negotiate env acsm_path s = (Ret (Some (url, rights, Some title)), s1, tr1) →
  sendHTTPRequest_DL2FILE env url (title +:+ ".tmp") = (Ret 200, wr) →
  apply_writes (config_dir env) wr (files s1)
    !! resolve (config_dir env) (title +:+ ".tmp") = Some content →
  b "PK" `prefix_of` file_bytes env content →
  resolve (config_dir env) (title +:+ ".epub") ∉ dirs s →
  ∃ s' tr fulfilled,
    _fulfill_acsm env acsm_path key_path s = (Ret tt, s', tr) ∧
    files s' !! resolve (config_dir env) (title +:+ ".epub") = Some fulfilled ∧
    match zipfile_error env (file_bytes env content) with
    | Some e =>
        tr = [(cwd s, Progress "Reading ACSM file..."); (cwd s, FsOp op_getcwd)] ++
             tr1 ++
             [(config_dir env, Progress "Downloading book...");
              (config_dir env,
               Call (c_sendHTTPRequest_DL2FILE url (title +:+ ".tmp")));
              (config_dir env, FsOp (op_read (title +:+ ".tmp") (Some 10%nat)));
              (config_dir env,
               FsOp (op_move (title +:+ ".tmp") (title +:+ ".epub")));
              (config_dir env,
               FsOp (op_zip_writestr (title +:+ ".epub") "META-INF/rights.xml"));
              (config_dir env, Finished false ("Error: " +:+ e));
              (config_dir env, FsOp (op_chdir (cwd s)))] ∧
        fulfilled = content
    | None =>
        tr = [(cwd s, Progress "Reading ACSM file..."); (cwd s, FsOp op_getcwd)] ++
             tr1 ++
             [(config_dir env, Progress "Downloading book...");
              (config_dir env,
               Call (c_sendHTTPRequest_DL2FILE url (title +:+ ".tmp")));
              (config_dir env, FsOp (op_read (title +:+ ".tmp") (Some 10%nat)));
              (config_dir env,
               FsOp (op_move (title +:+ ".tmp") (title +:+ ".epub")));
              (config_dir env,
               FsOp (op_zip_writestr (title +:+ ".epub") "META-INF/rights.xml"));
              (config_dir env,
               Progress ("File fulfilled: " +:+ (title +:+ ".epub")));
              (config_dir env,
               Finished true ("Successfully fulfilled: " +:+ (title +:+ ".epub")));
              (config_dir env, FsOp (op_chdir (cwd s)))] ∧
        leading fulfilled = leading content ∧
        zip_members fulfilled =
          zip_members content ++ [("META-INF/rights.xml", encode_utf8 rights)] ∧
        NameToInfo fulfilled =
          <["META-INF/rights.xml" := encode_utf8 rights]> (NameToInfo content) ∧
        zip_read fulfilled "META-INF/rights.xml" = Some (encode_utf8 rights) ∧
        (∀ name, name ≠ "META-INF/rights.xml" →
                 zip_read fulfilled name = zip_read content name)
    end.
Proof.
  intros Hcwd Hneg Hdl Hfile Hpk Hnodir.
  destruct (negotiate_frame _ _ _ _ _ _ Hneg) as (Hdirs & Hcfg & _ & _).
  specialize (Hcfg _ eq_refl).
  unfold _fulfill_acsm, fulfill_body, download, deliver. run_M.
  destruct (decide (cwd s ∈ dirs s)) as [_|]; [|contradiction].
  rewrite Hneg. run_M. rewrite Hdl. run_M. rewrite Hcfg.
  change (200 =? 200) with true. run_M. rewrite Hfile. run_M.
  rewrite (sniff_epub _ Hpk). run_M. rewrite Hfile.
  change (".epub" =? ".epub")%string with true. run_M.
  rewrite Hdirs, (bool_decide_eq_false_2 _ Hnodir), lookup_insert_eq.
  destruct (zipfile_error env (file_bytes env content)) as [e|]; run_M.
  all: destruct (decide (cwd s ∈ dirs s)) as [_|]; [|contradiction].
  - eexists _, _, _. split; [reflexivity|]. norm_app.
    split; [apply lookup_insert_eq|]. split; reflexivity.
  - eexists _, _, _. split; [reflexivity|]. norm_app.
    split; [apply lookup_insert_eq|]. split; [reflexivity|].
    split; [reflexivity|]. split; [reflexivity|].
    assert (NameToInfo (zip_append content "META-INF/rights.xml" rights) =
            <["META-INF/rights.xml" := encode_utf8 rights]> (NameToInfo content))
      as Hex.
    { unfold NameToInfo, zip_append, zip_members. cbn [archive default from_option id].
      by rewrite reverse_app. }
    split; [exact Hex|]. unfold zip_read. rewrite Hex.
    split; [apply lookup_insert_eq|].
    intros name Hname. by apply lookup_insert_ne.
Qed.

Lemma container_gets_rights_witness :
  ∃ s' tr,
    _fulfill_acsm (Demo.env Demo.reply Demo.epub 200 true None)
                  "book.acsm" "adobekey.der" Demo.machine = (Ret tt, s', tr) ∧
    zip_members <$> files s' !! "/home/u/.deacsm/Moby.epub" =
      Some [("mimetype", b "application/epub+zip");
            ("META-INF/rights.xml", b "<rights/>")].
Proof.
  pose (E := Demo.env Demo.reply Demo.epub 200 true None).
  pose (neg := negotiate E "book.acsm" Demo.machine).
  destruct (container_gets_rights E "book.acsm" "adobekey.der" Demo.machine
              (Some "http://acs.example/book") "<rights/>" "Moby"
              neg.1.2 neg.2 [("Moby.tmp", Demo.epub)] Demo.epub)
    as (s' & tr & fulfilled & Hrun & Hfile & _ & _ & Hmem & _).
  - cbn. set_solver.
  - reflexivity.
  - reflexivity.
  - reflexivity.
  - by exists [].
  - vm_compute. set_solver.
  - exists s', tr. split; [exact Hrun|].
    change (resolve (config_dir E) ("Moby" +:+ ".epub"))
      with "/home/u/.deacsm/Moby.epub" in Hfile.
    rewrite Hfile. cbn [fmap option_fmap option_map]. by rewrite Hmem.
Defined.

(** What the specification says of every container does not hold of a
    download that already holds a rights document, which the new member
    hides from every reader by name, nor of a download that [zipfile]
    refuses, whose run does not succeed. *)
Lemma container_gets_rights_counterexample :
  (let out := _fulfill_acsm (Faulty.usual Faulty.licensed_epub) "book.acsm"
                            "adobekey.der" Demo.machine in
   last (signals out.2) = Some (Finished true "Successfully fulfilled: Moby.epub") ∧
   zip_read Faulty.licensed_epub "META-INF/rights.xml" = Some (b "<old/>") ∧
   (files out.1.2 !! "/home/u/.deacsm/Moby.epub") ≫=
     (λ f, zip_read f "META-INF/rights.xml") = Some (b "<rights/>")) ∧
  (let out := _fulfill_acsm
                (Faulty.refusing_zipfile (Faulty.usual Demo.epub)
                                         "zip file version 9.9")
                "book.acsm" "adobekey.der" Demo.machine in
   b "PK" `prefix_of` file_bytes (Faulty.usual Demo.epub) Demo.epub ∧
   last (signals out.2) = Some (Finished false "Error: zip file version 9.9")).
Proof.
  split.
  - intros out. repeat split; vm_compute; reflexivity.
  - intros out. split; [by exists []|]. vm_compute. reflexivity.
Qed.

(** C4. Every run whose downloaded content starts with the document magic,
    the two names it uses not being directories.  The rights document is
    parsed again and its resource identifier read; when that fails, or
    when the directory for the copy "tmp_<title>.pdf" does not exist (a
    title with a "/"), the run ends with "Error: ..." before the patch is
    called, and the download stays under "<title>.pdf".  Otherwise the
    file is renamed to the copy and the patch is called on it, the copy
    holding the downloaded content, with the rights document, the final
    name and the identifier.  When the patch returns, the copy is removed
    and the run ends with "Successfully fulfilled: <title>.pdf" or with
    "Failed to patch PDF: <title>.pdf", as the patch says.  When the patch
    raises, the copy is not removed: the run ends with "Error: ..." and
    the copy is still there. *)
Theorem document_gets_patched (env : Env) (acsm_path key_path : string) (s : fsys)
    (url : option string) (rights title : string) (s1 : fsys) (tr1 : trace)
    (wr : writes) (content : file) :
  let pdf := title +:+ ".pdf" in
  let tmp := "tmp_" +:+ (title +:+ ".pdf") in
  let upto :=
    [(cwd s, Progress "Reading ACSM file..."); (cwd s, FsOp op_getcwd)] ++ tr1 ++
    [(config_dir env, Progress "Downloading book...");
     (config_dir env, Call (c_sendHTTPRequest_DL2FILE url (title +:+ ".tmp")));
     (config_dir env, FsOp (op_read (title +:+ ".tmp") (Some 10%nat)));
     (config_dir env, FsOp (op_move (title +:+ ".tmp") pdf));
     (config_dir env, Progress "Patching PDF encryption...")] in
  let back := (config_dir env, FsOp (op_chdir (cwd s))) in
  cwd s ∈ dirs s →
  negotiate env acsm_path s = (Ret (Some (url, rights, Some title)), s1, tr1) →
  sendHTTPRequest_DL2FILE env url (title +:+ ".tmp") = (Ret 200, wr) →
  apply_writes (config_dir env) wr (files s1)
    !! resolve (config_dir env) (title +:+ ".tmp") = Some content →
  b "%PDF" `prefix_of` file_bytes env content →
  resolve (config_dir env) pdf ∉ dirs s →
  resolve (config_dir env) tmp ∉ dirs s →
  ∃ s' tr,
    _fulfill_acsm env acsm_path key_path s = (Ret tt, s', tr) ∧
    match fromstring env rights with
    | Raise e =>
        tr = upto ++ [(config_dir env, Finished false ("Error: " +:+ e)); back] ∧
        files s' !! resolve (config_dir env) pdf = Some content
    | Ret rights_doc =>
        match find resource_path rights_doc with
        | None =>
            tr = upto ++
                 [(config_dir env,
                   Finished false "Error: 'NoneType' object has no attribute 'text'");
                  back] ∧
            files s' !! resolve (config_dir env) pdf = Some content
        | Some node =>
            if parent_exists s (resolve (config_dir env) tmp) then
              match patch_drm_into_pdf env tmp (Some content) rights pdf (text node)
              with
              | (Ret ok, _) =>
                  tr = upto ++
                       [(config_dir env, FsOp (op_rename pdf tmp));
                        (config_dir env,
                         Call (c_patch_drm_into_pdf tmp (Some content) rights pdf
                                                    (text node)));
                        (config_dir env, FsOp (op_remove tmp));
                        (config_dir env,
                         Finished ok (if ok then "Successfully fulfilled: " +:+ pdf
                                      else "Failed to patch PDF: " +:+ pdf));
                        back] ∧
                  files s' !! resolve (config_dir env) tmp = None
              | (Raise e, _) =>
                  tr = upto ++
                       [(config_dir env, FsOp (op_rename pdf tmp));
                        (config_dir env,
                         Call (c_patch_drm_into_pdf tmp (Some content) rights pdf
                                                    (text node)));
                        (config_dir env, Finished false ("Error: " +:+ e));
                        back] ∧
                  is_Some (files s' !! resolve (config_dir env) tmp)
              end
            else
              tr = upto ++
                   [(config_dir env, FsOp (op_rename pdf tmp));
                    (config_dir env,
                     Finished false
                       ("Error: [Errno 2] No such file or directory: '" +:+ pdf
                        +:+ "' -> '" +:+ tmp +:+ "'"));
                    back] ∧
              files s' !! resolve (config_dir env) pdf = Some content
        end
    end.
Proof.
  intros pdf tmp upto back Hcwd Hneg Hdl Hfile Hpdf Hnodir Hnodir'.
  subst pdf tmp upto back.
  destruct (negotiate_frame _ _ _ _ _ _ Hneg) as (Hdirs & Hcfg & _ & _).
  specialize (Hcfg _ eq_refl).
  unfold _fulfill_acsm, fulfill_body, download, deliver. run_M.
  destruct (decide (cwd s ∈ dirs s)) as [_|]; [|contradiction].
  rewrite Hneg. run_M. rewrite Hdl. run_M. rewrite Hcfg.
  change (200 =? 200) with true. run_M. rewrite Hfile. run_M.
  rewrite (sniff_pdf _ Hpdf). run_M. rewrite Hfile.
  change (".pdf" =? ".epub")%string with false.
  change (".pdf" =? ".pdf")%string with true. run_M.
  rewrite ?Hdirs.
  destruct (fromstring env rights) as [rights_doc|e]; run_M.
  2: { destruct (decide (cwd s ∈ dirs s)) as [_|]; [|contradiction].
       eexists _, _. split; [reflexivity|]. norm_app.
       split; [reflexivity|]. apply lookup_insert_eq. }
  destruct (find resource_path rights_doc) as [node|]; run_M.
  2: { destruct (decide (cwd s ∈ dirs s)) as [_|]; [|contradiction].
       eexists _, _. split; [reflexivity|]. norm_app.
       split; [reflexivity|]. apply lookup_insert_eq. }
  rewrite lookup_insert_eq, (bool_decide_eq_false_2 _ Hnodir').
  match goal with
  | |- context [parent_exists ?st ?q] =>
      rewrite (parent_exists_dirs st s q eq_refl)
  end.
  destruct (parent_exists s _); run_M.
  2: { destruct (decide (cwd s ∈ dirs s)) as [_|]; [|contradiction].
       eexists _, _. split; [reflexivity|]. norm_app.
       split; [reflexivity|]. apply lookup_insert_eq. }
  rewrite !lookup_insert_eq.
  destruct (patch_drm_into_pdf env _ _ _ _ _) as [[ok|e] wr']; run_M.
  - match goal with
    | |- context [apply_writes ?d ?w ?m !! ?k] =>
        destruct (apply_writes_is_Some d w m k) as [kept Hkept];
          [rewrite lookup_insert_eq; eauto | rewrite Hkept]
    end.
    run_M.
    destruct ok; run_M.
    all: destruct (decide (cwd s ∈ dirs s)) as [_|]; [|contradiction].
    all: eexists _, _; split; [reflexivity|]; norm_app.
    all: split; [reflexivity|]; run_M; apply lookup_delete_eq.
  - destruct (decide (cwd s ∈ dirs s)) as [_|]; [|contradiction].
    eexists _, _. split; [reflexivity|]. norm_app.
    split; [reflexivity|]. run_M.
    apply apply_writes_is_Some. rewrite lookup_insert_eq. eauto.
Qed.

Lemma document_gets_patched_witness :
  ∃ s' tr,
    _fulfill_acsm (Faulty.with_patch (Faulty.usual Demo.pdf)
                     (λ _ _ _ _ _, (Raise "PDF is encrypted", [])))
                  "book.acsm" "adobekey.der" Demo.machine = (Ret tt, s', tr) ∧
    calls tr !! 4%nat =
      Some ("/home/u/.deacsm",
            c_patch_drm_into_pdf "tmp_Moby.pdf" (Some Demo.pdf) "<rights/>" "Moby.pdf"
                                 (Some "urn:uuid:r0")) ∧
    last (signals tr) = Some (Finished false "Error: PDF is encrypted") ∧
    files s' !! "/home/u/.deacsm/tmp_Moby.pdf" = Some Demo.pdf.
Proof.
  pose (E := Faulty.with_patch (Faulty.usual Demo.pdf)
               (λ _ _ _ _ _, (Raise "PDF is encrypted", []))).
  pose (neg := negotiate E "book.acsm" Demo.machine).
  destruct (document_gets_patched E "book.acsm" "adobekey.der" Demo.machine
              (Some "http://acs.example/book") "<rights/>" "Moby"
              neg.1.2 neg.2 [("Moby.tmp", Demo.pdf)] Demo.pdf)
    as (s' & tr & Hrun & Hcase).
  - cbn. set_solver.
  - reflexivity.
  - reflexivity.
  - reflexivity.
  - by exists (b "-1.4 body").
  - vm_compute. set_solver.
  - vm_compute. set_solver.
  - exists s', tr. split; [exact Hrun|].
    revert Hrun. vm_compute. intros [= <- <-]. repeat split.
Defined.

(** ** The task runner *)

Lemma notifies_once_spec (l : list event) :
  notifies_once l = true →
  ∃ msgs ok msg, l = (Progress <$> msgs) ++ [Finished ok msg].
Proof.
  induction l as [|e l IH]; [discriminate|].
  destruct e as [m|ok m| |]; simpl.
  - intros (msgs & ok & msg & ->)%IH. by exists (m :: msgs), ok, msg.
  - destruct l; [|discriminate]. intros _. by exists [], ok, m.
  - discriminate.
  - discriminate.
Qed.

Lemma only_progress_then_finished (l : list event) (ok : bool) (msg : string) :
  only_progress l = true → notifies_once (l ++ [Finished ok msg]) = true.
Proof.
  induction l as [|e l IH]; [reflexivity|].
  destruct e; simpl; try discriminate. exact IH.
Qed.

Lemma login_well_notified (env : Env) (email password : string) (version : Z)
    (s : fsys) :
  well_notified (_login_adobe env email password version s) = true.
Proof. run_all; unfold well_notified; read_trace; reflexivity. Qed.

Lemma fulfill_well_notified (env : Env) (acsm_path key_path : string) (s : fsys) :
  well_notified (_fulfill_acsm env acsm_path key_path s) = true.
Proof. run_all; unfold well_notified; read_trace; reflexivity. Qed.

Lemma decrypt_well_notified (env : Env) (epub_path key_path output_path : string)
    (s : fsys) :
  well_notified (_decrypt_epub env epub_path key_path output_path s) = true.
Proof. run_all; unfold well_notified; read_trace; reflexivity. Qed.

(** What [run] adds: a workflow that raised gets its terminal notification
    from the handler, and nothing is raised further. *)
Lemma run_handler (m : M unit) (s : fsys) :
  well_notified (m s) = true →
  ∃ s' tr,
    try_except m (λ e, emit (Finished false ("Error: " +:+ e))) s = (Ret tt, s', tr) ∧
    notifies_once (signals tr) = true.
Proof.
  unfold well_notified. run_M.
  destruct (m s) as [[[[]|e] s1] t1]; cbn [fst snd]; intros Hm.
  - eauto.
  - eexists _, _. split; [reflexivity|].
    rewrite signals_app. by apply only_progress_then_finished.
Qed.

(** C7. For each of the three tasks the main window starts, [run] returns
    normally (no exception reaches the caller) and emits what the workflow
    emits, in the same order and with nothing dropped or added, but for one
    case: when the workflow raises, [run] adds the failure "Error: ..."
    with the text of the exception, after everything the workflow had
    emitted.  Either way the notifications are progress messages followed
    by exactly one terminal notification. *)
Theorem run_notifies_once (env : Env) (self : WorkerThread) (s : fsys) :
  task_type self ∈ ["login"; "fulfill"; "decrypt"] →
  ∃ s' tr msgs ok msg,
    run env self s = (Ret tt, s', tr) ∧
    signals tr = (Progress <$> msgs) ++ [Finished ok msg] ∧
    match dispatch env self s with
    | (Ret _, s1, t1) => s' = s1 ∧ tr = t1
    | (Raise e, s1, t1) =>
        s' = s1 ∧ tr = t1 ++ [(cwd s1, Finished false ("Error: " +:+ e))] ∧
        signals t1 = Progress <$> msgs ∧ ok = false ∧ msg = "Error: " +:+ e
    end.
Proof.
  intros Hty.
  assert (∀ e, well_notified (@raise unit e s) = true) as Hraise by reflexivity.
  assert (well_notified (dispatch env self s) = true) as Hwell.
  { unfold dispatch.
    rewrite !elem_of_cons in Hty.
    destruct Hty as [-> | [-> | [-> | []%elem_of_nil]]].
    - change ("login" =? "login")%string with true. cbv iota.
      repeat destruct_match; auto using login_well_notified.
    - change ("fulfill" =? "login")%string with false.
      change ("fulfill" =? "fulfill")%string with true. cbv iota.
      repeat destruct_match; auto using fulfill_well_notified.
    - change ("decrypt" =? "login")%string with false.
      change ("decrypt" =? "fulfill")%string with false.
      change ("decrypt" =? "decrypt")%string with true. cbv iota.
      repeat destruct_match; auto using decrypt_well_notified. }
  unfold run. run_M. unfold well_notified in Hwell.
  destruct (dispatch env self s) as [[[[]|e] s1] t1]; cbn [fst snd] in Hwell.
  - apply notifies_once_spec in Hwell as (msgs & ok & msg & Hsig).
    by exists s1, t1, msgs, ok, msg.
  - pose proof (only_progress_then_finished _ false ("Error: " +:+ e) Hwell) as Hn.
    apply notifies_once_spec in Hn as (msgs & ok & msg & Hsig).
    apply app_inj_tail in Hsig as [Hmsgs [= <- <-]].
    exists s1. eexists. exists msgs, false, ("Error: " +:+ e).
    split; [reflexivity|]. rewrite signals_app, Hmsgs.
    by repeat split.
Qed.

Lemma run_notifies_once_witness :
  ∃ s' tr,
    run Demo.offline
        {| task_type := "login"; args := [PStr "me@example.org"; PStr "pw"; PInt 2] |}
        Demo.machine = (Ret tt, s', tr) ∧
    signals tr = [Progress "Creating device files...";
                  Finished false "Error: [Errno 111] Connection refused"].
Proof.
  destruct (run_notifies_once Demo.offline
              {| task_type := "login";
                 args := [PStr "me@example.org"; PStr "pw"; PInt 2] |}
              Demo.machine)
    as (s' & tr & msgs & ok & msg & Hrun & _ & _).
  - cbn [task_type]. apply list_elem_of_here.
  - exists s', tr. split; [exact Hrun|].
    revert Hrun. vm_compute. by intros [= <- <-].
Defined.

(** Outside the three tasks [run] does nothing at all. *)
Lemma run_unknown_task (env : Env) (self : WorkerThread) (s : fsys) :
  task_type self ∉ ["login"; "fulfill"; "decrypt"] →
  run env self s = (Ret tt, s, []).
Proof.
  rewrite !not_elem_of_cons. intros (H1 & H2 & H3 & _).
  unfold run, dispatch. run_M.
  apply String.eqb_neq in H1, H2, H3. by rewrite H1, H2, H3.
Qed.

(** The specification speaks of every invocation; on a task type it does
    not know, [run] returns without any notification. *)
Lemma run_notifies_once_counterexample :
  run Demo.offline {| task_type := "logout"; args := [] |} Demo.machine =
    (Ret tt, Demo.machine, []) ∧
  signals (run Demo.offline {| task_type := "logout"; args := [] |}
               Demo.machine).2 = [].
Proof.
  assert (run Demo.offline {| task_type := "logout"; args := [] |} Demo.machine =
            (Ret tt, Demo.machine, [])) as H.
  { apply run_unknown_task. cbn [task_type].
    rewrite !not_elem_of_cons. repeat split; try discriminate. apply not_elem_of_nil. }
  split; [exact H|]. by rewrite H.
Qed.

(** ** The working directory *)

(** C9. An authorization run and a fulfillment run end in the working
    directory they started in, however they end (returning or raising), and
    every collaborator they call runs in the configuration directory; in a
    fulfillment run so does every file operation other than asking for and
    changing the directory.

    Started in a directory that exists, a run changes into the
    configuration directory when it can: the authorization when that
    directory exists or can be made, the fulfillment, which does not make
    it, when it exists.  The trace then opens with the first progress
    message, the making of the directory (authorization only), [getcwd]
    and the change of directory, all in the initial directory; it closes
    with the change back to the initial directory; and everything between
    the two changes happens in the configuration directory.  When the
    configuration directory does not exist, nothing of a fulfillment run
    happens in it. *)
Theorem workflows_restore_cwd (env : Env) (s : fsys) :
  (∀ email password version,
     let out := _login_adobe env email password version s in
     cwd out.1.2 = cwd s ∧
     Forall (λ dc, dc.1 = config_dir env) (calls out.2) ∧
     (cwd s ∈ dirs s →
      config_dir env ∈ dirs s ∨ config_dir env ∉ dom (files s) →
      take 4 out.2 =
        [(cwd s, Progress "Creating device files...");
         (cwd s, FsOp (op_mkdir (config_dir env)));
         (cwd s, FsOp op_getcwd);
         (cwd s, FsOp (op_chdir (config_dir env)))] ∧
      last out.2 = Some (config_dir env, FsOp (op_chdir (cwd s))) ∧
      Forall (λ de, de.1 = config_dir env) (drop 4 out.2))) ∧
  (∀ acsm_path key_path,
     let out := _fulfill_acsm env acsm_path key_path s in
     cwd out.1.2 = cwd s ∧
     Forall (λ dc, dc.1 = config_dir env) (calls out.2) ∧
     Forall (λ do, do.1 = config_dir env ∨ do.2 = op_getcwd ∨ ∃ p, do.2 = op_chdir p)
            (fsops out.2) ∧
     (cwd s ∈ dirs s →
      config_dir env ∈ dirs s →
      take 3 out.2 =
        [(cwd s, Progress "Reading ACSM file...");
         (cwd s, FsOp op_getcwd);
         (cwd s, FsOp (op_chdir (config_dir env)))] ∧
      last out.2 = Some (config_dir env, FsOp (op_chdir (cwd s))) ∧
      Forall (λ de, de.1 = config_dir env) (drop 3 out.2)) ∧
     (cwd s ∈ dirs s →
      config_dir env ∉ dirs s →
      out.1.1 = Ret tt ∧ Forall (λ de, de.1 = cwd s) out.2)).
Proof.
  split; intros; subst out.
  - run_all; read_trace.
    all: split; [reflexivity|].
    all: split; [repeat (constructor; [reflexivity|]); constructor|].
    all: intros Hcwd Hcfg.
    all: try contradiction.
    all: try (destruct Hcfg; contradiction).
    all: try absurd_union.
    all: norm_app; cbn [take drop last].
    all: split; [reflexivity|]; split; [reflexivity|].
    all: repeat (constructor; [reflexivity|]); constructor.
  - run_all; read_trace.
    all: split; [reflexivity|].
    all: split; [repeat (constructor; [reflexivity|]); constructor|].
    all: split;
      [repeat (constructor;
               [first [by left | by right; left | right; right; eauto] |]);
       constructor|].
    all: split; intros Hcwd Hcfg; try contradiction.
    all: norm_app; cbn [take drop last].
    all: try (split; [reflexivity|]; split; [reflexivity|]).
    all: try (split; [reflexivity|]).
    all: repeat (constructor; [reflexivity|]); constructor.
Qed.

(** The specification has every run change into the configuration
    directory; a fulfillment on a machine without that directory ends, with
    one failure notification, without having been in it. *)
Lemma workflows_restore_cwd_counterexample :
  let out := _fulfill_acsm (Faulty.usual Demo.epub) "book.acsm" "adobekey.der"
                           Faulty.fresh_machine in
  out.1 = (Ret tt, Faulty.fresh_machine) ∧
  signals out.2 =
    [Progress "Reading ACSM file...";
     Finished false
       "Error: [Errno 2] No such file or directory: '/home/u/.deacsm'"] ∧
  Forall (λ de, de.1 = "/home/u") out.2 ∧
  config_dir (Faulty.usual Demo.epub) = "/home/u/.deacsm".
Proof.
  intros out. vm_compute. split; [reflexivity|]. split; [reflexivity|].
  split; [|reflexivity]. repeat (constructor; [reflexivity|]). constructor.
Qed.

(** * More of the code *)

(** ** The decrypt workflow, again *)

(** X1. When [decryptBook] raises, the decrypt workflow does not: it ends with
    the single terminal notification "Decryption error: <e>", after the two
    progress messages. *)
Theorem decrypt_error_is_reported (env : Env) (epub_path key_path output_path : string)
    (s : fsys) (decrypt : list byte → string → string → answer Z)
    (key : file) (e : string) (wr : writes) :
  decryptBook env = Some decrypt →
  files s !! resolve (cwd s) key_path = Some key →
  decrypt (file_bytes env key) epub_path output_path = (Raise e, wr) →
  ∃ s' tr,
    _decrypt_epub env epub_path key_path output_path s = (Ret tt, s', tr) ∧
    signals tr = [Progress "Reading key file..."; Progress "Decrypting EPUB...";
                  Finished false ("Decryption error: " +:+ e)].
Proof.
  intros Hmod Hkey Hres. unfold _decrypt_epub. rewrite Hmod. run_M.
  rewrite Hkey. run_M. rewrite Hres. run_M.
  eexists _, _. split; reflexivity.
Qed.

Lemma decrypt_error_is_reported_witness :
  ∃ s' tr,
    _decrypt_epub (Faulty.with_decryptBook (Faulty.usual Demo.epub)
                     (Some (λ _ _ _, (Raise "File is not a zip file", []))))
                  "Moby.epub" "/home/u/.deacsm/adobekey.der" "out.epub"
                  Demo.machine = (Ret tt, s', tr) ∧
    last (signals tr) =
      Some (Finished false "Decryption error: File is not a zip file").
Proof.
  destruct (decrypt_error_is_reported
              (Faulty.with_decryptBook (Faulty.usual Demo.epub)
                 (Some (λ _ _ _, (Raise "File is not a zip file", []))))
              "Moby.epub" "/home/u/.deacsm/adobekey.der" "out.epub" Demo.machine
              (λ _ _ _, (Raise "File is not a zip file", []))
              (File (b "key") None) "File is not a zip file" []
              eq_refl eq_refl eq_refl)
    as (s' & tr & Hrun & Hsig).
  exists s', tr. split; [exact Hrun|]. rewrite Hsig. reflexivity.
Defined.

(** X2. Whatever the installation and the files, the decrypt workflow returns
    normally, in the directory it started in and with the same directories,
    having notified exactly once at the end; it calls no collaborator but
    [decryptBook], at most once, and without that call no file changes. *)
Theorem decrypt_never_raises (env : Env) (epub_path key_path output_path : string)
    (s : fsys) :
  ∃ s' tr,
    _decrypt_epub env epub_path key_path output_path s = (Ret tt, s', tr) ∧
    cwd s' = cwd s ∧ dirs s' = dirs s ∧
    notifies_once (signals tr) = true ∧
    (called tr = [] ∨ called tr = ["decryptBook"]) ∧
    (called tr = [] → files s' = files s).
Proof.
  run_all.
  all: eexists _, _; split; [reflexivity|]; unfold called; read_trace.
  all: cbn [fmap list_fmap call_name snd].
  all: repeat split; auto; discriminate.
Qed.

(** ** The authorization workflow *)

(** X3. The authorization workflow calls its collaborators in one fixed
    order, stopping at the first that fails: the calls of any run are a
    prefix of the seven of [login_calls].  A run that reports success made
    all seven, the export of "adobekey.der" last, and its message names the
    address it was given. *)
Theorem login_calls_in_order (env : Env) (email password : string) (version : Z)
    (s : fsys) :
  let out := _login_adobe env email password version s in
  (calls out.2).*2 `prefix_of` login_calls env email password version ∧
  (∀ msg, Finished true msg ∈ signals out.2 →
          (calls out.2).*2 = login_calls env email password version ∧
          msg = "Successfully authorized as " +:+ email).
Proof.
  intros out. subst out. unfold login_calls. run_all; read_trace.
  all: cbn [fmap list_fmap snd].
  all: split; [by eexists|].
  all: intros msg; rewrite ?elem_of_cons, elem_of_nil.
  all: intros H; repeat destruct H as [H|H]; try discriminate H; try contradiction.
  all: by injection H as <-.
Qed.

(** X4. When the account server rejects the sign-in, the run ends with
    "Failed to sign in: <resp>"; neither [activateDevice] nor the key export
    is called, and the working directory is the initial one. *)
Theorem login_sign_in_rejected (env : Env) (email password : string) (version : Z)
    (s : fsys) (resp0 resp : string) (wr0 wr1 wr2 wr3 wr4 : writes) :
  cwd s ∈ dirs s →
  config_dir env ∈ dirs s →
  update_account_path env (config_dir env) = (Ret tt, wr0) →
  createDeviceKeyFile env = (Ret tt, wr1) →
  createDeviceFile env true version = (Ret true, wr2) →
  createUser env version = (Ret (true, resp0), wr3) →
  signIn env "AdobeID" email password = (Ret (false, resp), wr4) →
  ∃ s' tr,
    _login_adobe env email password version s = (Ret tt, s', tr) ∧
    signals tr = [Progress "Creating device files..."; Progress "Creating user account...";
                  Progress "Signing in..."; Finished false ("Failed to sign in: " +:+ resp)] ∧
    called tr = ["update_account_path"; "createDeviceKeyFile"; "createDeviceFile";
                 "createUser"; "signIn"] ∧
    cwd s' = cwd s.
Proof.
  intros Hcwd Hcfg H0 H1 H2 H3 H4.
  unfold _login_adobe. run_M.
  destruct (decide (config_dir env ∈ dirs s)) as [_|]; [|contradiction].
  destruct (decide (cwd s ∈ dirs s)) as [_|]; [|contradiction].
  run_M. destruct (decide (config_dir env ∈ dirs s)) as [_|]; [|contradiction].
  run_M. rewrite H0, H1, H2, H3, H4. run_M.
  destruct (decide (cwd s ∈ dirs s)) as [_|]; [|contradiction].
  eexists _, _. split; [reflexivity|]. by unfold called.
Qed.

Lemma login_sign_in_rejected_witness :
  ∃ s' tr,
    _login_adobe (Faulty.with_signIn (Faulty.usual Demo.epub)
                    (λ _ _ _, (Ret (false, "E_AUTH_FAILED"), [])))
                 "reader@example.org" "wrong" 2 Demo.machine = (Ret tt, s', tr) ∧
    last (signals tr) = Some (Finished false "Failed to sign in: E_AUTH_FAILED") ∧
    cwd s' = "/home/u".
Proof.
  destruct (login_sign_in_rejected
              (Faulty.with_signIn (Faulty.usual Demo.epub)
                 (λ _ _ _, (Ret (false, "E_AUTH_FAILED"), [])))
              "reader@example.org" "wrong" 2 Demo.machine "" "E_AUTH_FAILED"
              [] [("devicesalt", File (b "salt") None)]
              [("device.xml", File (b "<d/>") None)] [] [])
    as (s' & tr & Hrun & Hsig & _ & Hcwd).
  - cbn. set_solver.
  - cbn. set_solver.
  - reflexivity.
  - reflexivity.
  - reflexivity.
  - reflexivity.
  - reflexivity.
  - exists s', tr. split; [exact Hrun|]. rewrite Hsig. split; [reflexivity|exact Hcwd].
Defined.

(** A run of the authorization in which every collaborator agrees. *)
Lemma login_run (env : Env) (email password : string) (version : Z)
    (s : fsys) (r1 r2 r3 : string) (wr0 wr1 wr2 wr3 wr4 wr5 wr6 : writes) :
  cwd s ∈ dirs s →
  config_dir env ∉ dom (files s) →
  update_account_path env (config_dir env) = (Ret tt, wr0) →
  createDeviceKeyFile env = (Ret tt, wr1) →
  createDeviceFile env true version = (Ret true, wr2) →
  createUser env version = (Ret (true, r1), wr3) →
  signIn env "AdobeID" email password = (Ret (true, r2), wr4) →
  activateDevice env version = (Ret (true, r3), wr5) →
  exportAccountEncryptionKeyDER env "adobekey.der" = (Ret tt, wr6) →
  ∃ s' tr,
    _login_adobe env email password version s = (Ret tt, s', tr) ∧
    signals tr = [Progress "Creating device files..."; Progress "Creating user account...";
                  Progress "Signing in..."; Progress "Activating device...";
                  Progress "Exporting keys...";
                  Finished true ("Successfully authorized as " +:+ email)] ∧
    cwd s' = cwd s ∧
    dirs s' = {[config_dir env]} ∪ dirs s ∧
    files s' = apply_writes (config_dir env) (wr0 ++ wr1 ++ wr2 ++ wr3 ++ wr4 ++ wr5 ++ wr6)
                            (files s).
Proof.
  intros Hcwd Hcfg H0 H1 H2 H3 H4 H5 H6.
  unfold _login_adobe. run_M.
  destruct (decide (config_dir env ∈ dirs s)) as [Hin|Hnin].
  - destruct (decide (cwd s ∈ dirs s)) as [_|]; [|contradiction]. run_M.
    destruct (decide (config_dir env ∈ dirs s)) as [_|]; [|contradiction]. run_M.
    rewrite H0, H1, H2, H3, H4, H5, H6. run_M.
    destruct (decide (cwd s ∈ dirs s)) as [_|]; [|contradiction].
    eexists _, _. split; [reflexivity|]. run_M.
    repeat split; [symmetry; apply subseteq_union_1_L; by apply singleton_subseteq_l|].
    unfold apply_writes. by rewrite !foldl_app.
  - destruct (decide (config_dir env ∈ dom (files s))) as [|_]; [contradiction|]. run_M.
    destruct (decide (cwd s ∈ {[config_dir env]} ∪ dirs s)) as [_|Hn]; [|destruct Hn; set_solver].
    run_M.
    destruct (decide (config_dir env ∈ {[config_dir env]} ∪ dirs s)) as [_|Hn]; [|destruct Hn; set_solver].
    run_M. rewrite H0, H1, H2, H3, H4, H5, H6. run_M.
    destruct (decide (cwd s ∈ {[config_dir env]} ∪ dirs s)) as [_|Hn]; [|destruct Hn; set_solver].
    eexists _, _. split; [reflexivity|]. run_M.
    repeat split. unfold apply_writes. by rewrite !foldl_app.
Qed.

(** X5. When every collaborator agrees, an authorization ends with
    "Successfully authorized as <email>" after five progress messages, back
    in the initial directory; the configuration directory exists afterwards
    and the files are the initial ones with what the collaborators wrote,
    every relative path of theirs landing in the configuration directory. *)
Theorem login_succeeds (env : Env) (email password : string) (version : Z)
    (s : fsys) (r1 r2 r3 : string) (wr0 wr1 wr2 wr3 wr4 wr5 wr6 : writes) :
  cwd s ∈ dirs s →
  config_dir env ∉ dom (files s) →
  update_account_path env (config_dir env) = (Ret tt, wr0) →
  createDeviceKeyFile env = (Ret tt, wr1) →
  createDeviceFile env true version = (Ret true, wr2) →
  createUser env version = (Ret (true, r1), wr3) →
  signIn env "AdobeID" email password = (Ret (true, r2), wr4) →
  activateDevice env version = (Ret (true, r3), wr5) →
  exportAccountEncryptionKeyDER env "adobekey.der" = (Ret tt, wr6) →
  ∃ s' tr,
    _login_adobe env email password version s = (Ret tt, s', tr) ∧
    signals tr = [Progress "Creating device files..."; Progress "Creating user account...";
                  Progress "Signing in..."; Progress "Activating device...";
                  Progress "Exporting keys...";
                  Finished true ("Successfully authorized as " +:+ email)] ∧
    cwd s' = cwd s ∧
    dirs s' = {[config_dir env]} ∪ dirs s ∧
    files s' = apply_writes (config_dir env) (wr0 ++ wr1 ++ wr2 ++ wr3 ++ wr4 ++ wr5 ++ wr6)
                            (files s).
Proof.
  intros Hcwd Hcfg H0 H1 H2 H3 H4 H5 H6.
  eapply login_run; eassumption.
Qed.

Lemma login_succeeds_witness :
  ∃ s' tr,
    _login_adobe (Faulty.usual Demo.epub) "reader@example.org" "secret" 2
                 Faulty.fresh_machine = (Ret tt, s', tr) ∧
    files s' !! "/home/u/.deacsm/adobekey.der" = Some (File (b "key") None) ∧
    dirs s' = {["/home/u/.deacsm"]} ∪ {["/home/u"]}.
Proof.
  destruct (login_succeeds (Faulty.usual Demo.epub) "reader@example.org" "secret" 2
              Faulty.fresh_machine "" "" ""
              [] [("devicesalt", File (b "salt") None)]
              [("device.xml", File (b "<d/>") None)] [] []
              [("activation.xml", File (b "<a/>") None)]
              [("adobekey.der", File (b "key") None)])
    as (s' & tr & Hrun & _ & _ & Hdirs & Hfiles).
  - cbn. set_solver.
  - cbn. set_solver.
  - reflexivity.
  - reflexivity.
  - reflexivity.
  - reflexivity.
  - reflexivity.
  - reflexivity.
  - reflexivity.
  - exists s', tr. split; [exact Hrun|]. rewrite Hfiles. split; [reflexivity|exact Hdirs].
Defined.

(** ** The fulfillment workflow, again *)

(** X6. When the fulfillment service refuses, the run ends with
    "Fulfillment failed: <msg>" and nothing after [fulfill] is called: no
    rights are built and nothing is downloaded. *)
Theorem fulfillment_refused (env : Env) (acsm_path key_path : string) (s : fsys)
    (msg : string) (wr0 wr : writes) :
  cwd s ∈ dirs s →
  config_dir env ∈ dirs s →
  update_account_path env (config_dir env) = (Ret tt, wr0) →
  fulfill env (path_str env acsm_path) = (Ret (false, msg), wr) →
  ∃ s' tr,
    _fulfill_acsm env acsm_path key_path s = (Ret tt, s', tr) ∧
    signals tr = [Progress "Reading ACSM file..."; Progress "Fulfilling book...";
                  Finished false ("Fulfillment failed: " +:+ msg)] ∧
    called tr = ["update_account_path"; "fulfill"].
Proof.
  intros Hcwd Hcfg H0 H1. unfold_worker. run_M.
  destruct (decide (cwd s ∈ dirs s)) as [_|]; [|contradiction].
  destruct (decide (config_dir env ∈ dirs s)) as [_|]; [|contradiction].
  run_M. rewrite H0, H1. run_M.
  destruct (decide (cwd s ∈ dirs s)) as [_|]; [|contradiction].
  eexists _, _. by split.
Qed.

Lemma fulfillment_refused_witness :
  ∃ s' tr,
    _fulfill_acsm (Faulty.with_fulfill (Faulty.usual Demo.epub)
                     (λ _, (Ret (false, "E_LIC_ALREADY_FULFILLED_BY_ANOTHER_USER"), [])))
                  "book.acsm" "adobekey.der" Demo.machine = (Ret tt, s', tr) ∧
    last (signals tr) =
      Some (Finished false
              "Fulfillment failed: E_LIC_ALREADY_FULFILLED_BY_ANOTHER_USER").
Proof.
  destruct (fulfillment_refused
              (Faulty.with_fulfill (Faulty.usual Demo.epub)
                 (λ _, (Ret (false, "E_LIC_ALREADY_FULFILLED_BY_ANOTHER_USER"), [])))
              "book.acsm" "adobekey.der" Demo.machine
              "E_LIC_ALREADY_FULFILLED_BY_ANOTHER_USER" [] [])
    as (s' & tr & Hrun & Hsig & _).
  - cbn. set_solver.
  - cbn. set_solver.
  - reflexivity.
  - reflexivity.
  - exists s', tr. split; [exact Hrun|]. rewrite Hsig. reflexivity.
Defined.

(** X7. A reply that is not well-formed XML is not reported as a parse
    failure: [etree.fromstring] sits outside the inner [try], so the outer
    handler ends the run with "Error: <e>". *)
Theorem malformed_reply (env : Env) (acsm_path key_path : string) (s : fsys)
    (replyData e : string) (wr0 wr : writes) :
  cwd s ∈ dirs s →
  config_dir env ∈ dirs s →
  update_account_path env (config_dir env) = (Ret tt, wr0) →
  fulfill env (path_str env acsm_path) = (Ret (true, replyData), wr) →
  fromstring env replyData = Raise e →
  ∃ s' tr,
    _fulfill_acsm env acsm_path key_path s = (Ret tt, s', tr) ∧
    signals tr = [Progress "Reading ACSM file..."; Progress "Fulfilling book...";
                  Finished false ("Error: " +:+ e)] ∧
    called tr = ["update_account_path"; "fulfill"].
Proof.
  intros Hcwd Hcfg H0 H1 H2. unfold_worker. run_M.
  destruct (decide (cwd s ∈ dirs s)) as [_|]; [|contradiction].
  destruct (decide (config_dir env ∈ dirs s)) as [_|]; [|contradiction].
  run_M. rewrite H0, H1. run_M. rewrite H2. run_M.
  destruct (decide (cwd s ∈ dirs s)) as [_|]; [|contradiction].
  eexists _, _. by split.
Qed.

Lemma malformed_reply_witness :
  ∃ s' tr,
    _fulfill_acsm (Faulty.with_fulfill (Faulty.usual Demo.epub)
                     (λ _, (Ret (true, "<html>"), [])))
                  "book.acsm" "adobekey.der" Demo.machine = (Ret tt, s', tr) ∧
    last (signals tr) = Some (Finished false "Error: Document is empty").
Proof.
  destruct (malformed_reply
              (Faulty.with_fulfill (Faulty.usual Demo.epub)
                 (λ _, (Ret (true, "<html>"), [])))
              "book.acsm" "adobekey.der" Demo.machine "<html>" "Document is empty"
              [] [])
    as (s' & tr & Hrun & Hsig & _).
  - cbn. set_solver.
  - cbn. set_solver.
  - reflexivity.
  - reflexivity.
  - reflexivity.
  - exists s', tr. split; [exact Hrun|]. rewrite Hsig. reflexivity.
Defined.

(** X8. When [buildRights] returns [None] the run ends with
    "Failed to build rights.xml" before the progress message of the
    download, and nothing is downloaded. *)
Theorem rights_not_built (env : Env) (acsm_path key_path : string) (s : fsys)
    (replyData : string) (resp src : element) (wr0 wr wr' : writes) :
  cwd s ∈ dirs s →
  config_dir env ∈ dirs s →
  update_account_path env (config_dir env) = (Ret tt, wr0) →
  fulfill env (path_str env acsm_path) = (Ret (true, replyData), wr) →
  fromstring env replyData = Ret resp →
  find src_path resp = Some src →
  buildRights env (find licenseToken_path resp) = (Ret None, wr') →
  ∃ s' tr,
    _fulfill_acsm env acsm_path key_path s = (Ret tt, s', tr) ∧
    signals tr = [Progress "Reading ACSM file..."; Progress "Fulfilling book...";
                  Finished false "Failed to build rights.xml"] ∧
    called tr = ["update_account_path"; "fulfill"; "buildRights"].
Proof.
  intros Hcwd Hcfg H0 H1 H2 H3 H4. unfold_worker. run_M.
  destruct (decide (cwd s ∈ dirs s)) as [_|]; [|contradiction].
  destruct (decide (config_dir env ∈ dirs s)) as [_|]; [|contradiction].
  run_M. rewrite H0, H1. run_M. rewrite H2. run_M. rewrite H3. run_M.
  rewrite H4. run_M.
  destruct (decide (cwd s ∈ dirs s)) as [_|]; [|contradiction].
  eexists _, _. by split.
Qed.

Lemma rights_not_built_witness :
  ∃ s' tr,
    _fulfill_acsm (Faulty.with_buildRights (Faulty.usual Demo.epub)
                     (λ _, (Ret None, [])))
                  "book.acsm" "adobekey.der" Demo.machine = (Ret tt, s', tr) ∧
    last (signals tr) = Some (Finished false "Failed to build rights.xml").
Proof.
  destruct (rights_not_built
              (Faulty.with_buildRights (Faulty.usual Demo.epub) (λ _, (Ret None, [])))
              "book.acsm" "adobekey.der" Demo.machine "<reply/>" Demo.reply
              (Element (adNS "src") (Some "http://acs.example/book") [])
              [] [] [])
    as (s' & tr & Hrun & Hsig & _).
  - cbn. set_solver.
  - cbn. set_solver.
  - reflexivity.
  - reflexivity.
  - reflexivity.
  - reflexivity.
  - reflexivity.
  - exists s', tr. split; [exact Hrun|]. rewrite Hsig. reflexivity.
Defined.

(** X9. On a machine without the configuration directory (never authorized)
    a fulfillment fails at [os.chdir]: the run reports the error of that
    call, calls no collaborator, and leaves the file system as it was. *)
Theorem no_configuration_directory (env : Env) (acsm_path key_path : string)
    (s : fsys) :
  cwd s ∈ dirs s →
  config_dir env ∉ dirs s →
  _fulfill_acsm env acsm_path key_path s =
    (Ret tt, s,
     [(cwd s, Progress "Reading ACSM file..."); (cwd s, FsOp op_getcwd);
      (cwd s, FsOp (op_chdir (config_dir env)));
      (cwd s, Finished false ("Error: " +:+ no_such_file (config_dir env)));
      (cwd s, FsOp (op_chdir (cwd s)))]).
Proof.
  intros Hcwd Hcfg. unfold_worker. run_M.
  destruct (decide (cwd s ∈ dirs s)) as [_|]; [|contradiction].
  destruct (decide (config_dir env ∈ dirs s)) as [|_]; [contradiction|].
  run_M.
  destruct (decide (cwd s ∈ dirs s)) as [_|]; [|contradiction].
  by destruct s.
Qed.

Lemma no_configuration_directory_witness :
  (_fulfill_acsm (Faulty.usual Demo.epub) "book.acsm" "adobekey.der"
                 Faulty.fresh_machine).1 = (Ret tt, Faulty.fresh_machine).
Proof.
  rewrite (no_configuration_directory (Faulty.usual Demo.epub) "book.acsm"
             "adobekey.der" Faulty.fresh_machine).
  - reflexivity.
  - cbn. set_solver.
  - cbn. set_solver.
Defined.

Lemma get_book_name_empty_title (resp m t : element) (s : fsys) :
  find metadata_path resp = Some m →
  find [adDC "title"] m = Some t →
  text t = None →
  get_book_name resp s = (Ret None, s, []).
Proof.
  intros H1 H2 H3. unfold get_book_name. run_M. rewrite H1. run_M.
  rewrite H2. run_M. by rewrite H3.
Qed.

(** X10. The fallback name "Book" covers a missing metadata or title element,
    not an empty one: for [<dc:title/>] the text is [None], no exception
    is raised in the inner [try], and [book_name + ".tmp"] raises.  The
    run ends with the error of that addition and nothing is downloaded. *)
Theorem empty_title_stops_the_run (env : Env) (acsm_path key_path : string)
    (s : fsys) (replyData rights : string) (resp src m t : element)
    (wr0 wr wr' : writes) :
  cwd s ∈ dirs s →
  config_dir env ∈ dirs s →
  update_account_path env (config_dir env) = (Ret tt, wr0) →
  fulfill env (path_str env acsm_path) = (Ret (true, replyData), wr) →
  fromstring env replyData = Ret resp →
  find src_path resp = Some src →
  buildRights env (find licenseToken_path resp) = (Ret (Some rights), wr') →
  find metadata_path resp = Some m →
  find [adDC "title"] m = Some t →
  text t = None →
  ∃ s' tr,
    _fulfill_acsm env acsm_path key_path s = (Ret tt, s', tr) ∧
    signals tr =
      [Progress "Reading ACSM file..."; Progress "Fulfilling book...";
       Progress "Downloading book...";
       Finished false
         "Error: unsupported operand type(s) for +: 'NoneType' and 'str'"] ∧
    called tr = ["update_account_path"; "fulfill"; "buildRights"].
Proof.
  intros Hcwd Hcfg H0 H1 H2 H3 H4 H5 H6 H7. unfold_worker. run_M.
  destruct (decide (cwd s ∈ dirs s)) as [_|]; [|contradiction].
  destruct (decide (config_dir env ∈ dirs s)) as [_|]; [|contradiction].
  run_M. rewrite H0, H1. run_M. rewrite H2. run_M. rewrite H3. run_M.
  rewrite H4. run_M. rewrite H5. run_M. rewrite H6. run_M. rewrite H7. run_M.
  destruct (decide (cwd s ∈ dirs s)) as [_|]; [|contradiction].
  eexists _, _. by split.
Qed.

Lemma empty_title_stops_the_run_witness :
  ∃ s' tr,
    _fulfill_acsm (Demo.env Faulty.reply_empty_title Demo.epub 200 true (Some 0))
                  "book.acsm" "adobekey.der" Demo.machine = (Ret tt, s', tr) ∧
    last (signals tr) =
      Some (Finished false
              "Error: unsupported operand type(s) for +: 'NoneType' and 'str'").
Proof.
  destruct (empty_title_stops_the_run
              (Demo.env Faulty.reply_empty_title Demo.epub 200 true (Some 0))
              "book.acsm" "adobekey.der" Demo.machine "<reply/>" "<rights/>"
              Faulty.reply_empty_title
              (Element (adNS "src") (Some "http://acs.example/book") [])
              (Element (adNS "metadata") None [Element (adDC "title") None []])
              (Element (adDC "title") None [])
              [] [] [])
    as (s' & tr & Hrun & Hsig & _).
  - cbn. set_solver.
  - cbn. set_solver.
  - reflexivity.
  - reflexivity.
  - reflexivity.
  - reflexivity.
  - reflexivity.
  - reflexivity.
  - reflexivity.
  - reflexivity.
  - exists s', tr. split; [exact Hrun|]. rewrite Hsig. reflexivity.
Defined.




(** X12. When [patch_drm_into_pdf] raises, [os.remove] is not reached: the
    run ends with "Error: <e>" and the renamed download "tmp_<title>.pdf"
    is still in the configuration directory.  The title holds no "/", so
    that the copy is made in the configuration directory, and the two
    names are not those of directories. *)
Theorem patch_exception_leaves_the_copy (env : Env) (acsm_path key_path : string)
    (s : fsys) (url : option string) (rights title : string) (s1 : fsys)
    (tr1 : trace) (wr : writes) (content : file) (rights_doc node : element)
    (e : string) (wr' : writes) :
  cwd s ∈ dirs s →
  negotiate env acsm_path s = (Ret (Some (url, rights, Some title)), s1, tr1) →
  sendHTTPRequest_DL2FILE env url (title +:+ ".tmp") = (Ret 200, wr) →
  apply_writes (config_dir env) wr (files s1)
    !! resolve (config_dir env) (title +:+ ".tmp") = Some content →
  b "%PDF" `prefix_of` file_bytes env content →
  dirname title = None →
  resolve (config_dir env) (title +:+ ".pdf") ∉ dirs s →
  resolve (config_dir env) ("tmp_" +:+ (title +:+ ".pdf")) ∉ dirs s →
  fromstring env rights = Ret rights_doc →
  find resource_path rights_doc = Some node →
  patch_drm_into_pdf env ("tmp_" +:+ (title +:+ ".pdf")) (Some content) rights
                     (title +:+ ".pdf") (text node) = (Raise e, wr') →
  ∃ s' tr,
    _fulfill_acsm env acsm_path key_path s = (Ret tt, s', tr) ∧
    tr = [(cwd s, Progress "Reading ACSM file..."); (cwd s, FsOp op_getcwd)] ++ tr1 ++
         [(config_dir env, Progress "Downloading book...");
          (config_dir env, Call (c_sendHTTPRequest_DL2FILE url (title +:+ ".tmp")));
          (config_dir env, FsOp (op_read (title +:+ ".tmp") (Some 10%nat)));
          (config_dir env, FsOp (op_move (title +:+ ".tmp") (title +:+ ".pdf")));
          (config_dir env, Progress "Patching PDF encryption...");
          (config_dir env,
           FsOp (op_rename (title +:+ ".pdf") ("tmp_" +:+ (title +:+ ".pdf"))));
          (config_dir env,
           Call (c_patch_drm_into_pdf ("tmp_" +:+ (title +:+ ".pdf")) (Some content)
                                      rights (title +:+ ".pdf") (text node)));
          (config_dir env, Finished false ("Error: " +:+ e));
          (config_dir env, FsOp (op_chdir (cwd s)))] ∧
    is_Some (files s' !! resolve (config_dir env) ("tmp_" +:+ (title +:+ ".pdf"))).
Proof.
  intros Hcwd Hneg Hdl Hfile Hpdf Hname Hnodir Hnodir' Hxml Hres Hpatch.
  destruct (negotiate_frame _ _ _ _ _ _ Hneg) as (Hdirs & Hcfg & _ & _).
  specialize (Hcfg _ eq_refl).
  pose proof (negotiate_enters _ _ _ _ _ _ Hneg) as Hin.
  assert (dirname ("tmp_" +:+ (title +:+ ".pdf")) = None) as Htmp.
  { apply dirname_app_None; [reflexivity|]. by apply dirname_app_None. }
  unfold _fulfill_acsm, fulfill_body, download, deliver. run_M.
  destruct (decide (cwd s ∈ dirs s)) as [_|]; [|contradiction].
  rewrite Hneg. run_M. rewrite Hdl. run_M. rewrite Hcfg.
  change (200 =? 200) with true. run_M. rewrite Hfile. run_M.
  rewrite (sniff_pdf _ Hpdf). run_M. rewrite Hfile.
  change (".pdf" =? ".epub")%string with false.
  change (".pdf" =? ".pdf")%string with true. run_M.
  rewrite Hxml. run_M. rewrite Hres. run_M.
  rewrite ?Hdirs, lookup_insert_eq, (bool_decide_eq_false_2 _ Hnodir').
  match goal with
  | |- context [parent_exists ?st ?q] =>
      rewrite (parent_exists_dirs st s q eq_refl),
        (parent_exists_child s _ _ Hin Htmp)
  end.
  run_M. rewrite !lookup_insert_eq, Hpatch. run_M.
  destruct (decide (cwd s ∈ dirs s)) as [_|]; [|contradiction].
  eexists _, _. split; [reflexivity|]. norm_app.
  split; [reflexivity|]. run_M.
  apply apply_writes_is_Some. rewrite lookup_insert_eq. eauto.
Qed.

Lemma patch_exception_leaves_the_copy_witness :
  ∃ s' tr,
    _fulfill_acsm (Faulty.with_patch (Faulty.usual Demo.pdf)
                     (λ _ _ _ _ _, (Raise "PDF is damaged", [])))
                  "book.acsm" "adobekey.der" Demo.machine = (Ret tt, s', tr) ∧
    last (signals tr) = Some (Finished false "Error: PDF is damaged") ∧
    is_Some (files s' !! "/home/u/.deacsm/tmp_Moby.pdf").
Proof.
  pose (E := Faulty.with_patch (Faulty.usual Demo.pdf)
               (λ _ _ _ _ _, (Raise "PDF is damaged", []))).
  pose (neg := negotiate E "book.acsm" Demo.machine).
  destruct (patch_exception_leaves_the_copy E "book.acsm" "adobekey.der"
              Demo.machine (Some "http://acs.example/book") "<rights/>" "Moby"
              neg.1.2 neg.2 [("Moby.tmp", Demo.pdf)] Demo.pdf Demo.rights
              (Element (adNS "resource") (Some "urn:uuid:r0") [])
              "PDF is damaged" [])
    as (s' & tr & Hrun & -> & Hcopy).
  - cbn. set_solver.
  - reflexivity.
  - reflexivity.
  - reflexivity.
  - by exists (b "-1.4 body").
  - reflexivity.
  - vm_compute. set_solver.
  - vm_compute. set_solver.
  - reflexivity.
  - reflexivity.
  - reflexivity.
  - exists s'. eexists. split; [exact Hrun|]. split; [reflexivity|exact Hcopy].
Defined.



(** X14. The fulfillment workflow calls its collaborators in one fixed order,
    stopping at the first step that fails: the calls of any run are a prefix
    of account path, fulfill, build rights, download, patch.  Started in an
    existing directory it never raises and notifies exactly once, at the
    end. *)
Theorem fulfill_calls_in_order (env : Env) (acsm_path key_path : string) (s : fsys) :
  let out := _fulfill_acsm env acsm_path key_path s in
  called out.2 `prefix_of`
    ["update_account_path"; "fulfill"; "buildRights"; "sendHTTPRequest_DL2FILE";
     "patch_drm_into_pdf"] ∧
  (cwd s ∈ dirs s → out.1.1 = Ret tt ∧ notifies_once (signals out.2) = true).
Proof.
  intros out. subst out. run_all; unfold called; read_trace.
  all: cbn [fmap list_fmap call_name snd].
  all: split; [by eexists|].
  all: try done.
Qed.

(** ** The login dialog *)

(** X15. The login dialog is accepted only with usable data: the address is
    the stripped text of the field and not empty, the password is the field
    as typed and not empty, and the version is 1 or 2.  A dialog that was
    not accepted carries no data, and the only box the dialog shows is the
    warning that asks for address and password. *)
Theorem exec_accepts_valid_data_only (gs : list gesture) (d : LoginDialog) :
  result_data d = None →
  let out := exec_ gs d in
  (out.1.1 = true →
   ∃ data, result_data out.1.2 = Some data ∧ type data = "adobe" ∧
           email data = strip (email_input out.1.2) ∧ email data ≠ "" ∧
           password data = password_input out.1.2 ∧ password data ≠ "" ∧
           (version data = 1 ∨ version data = 2)) ∧
  (out.1.1 = false → result_data out.1.2 = None) ∧
  Forall (λ e, e = MessageBox warning "Error" "Please enter email and password")
         out.2.
Proof.
  revert d. induction gs as [|g gs IH]; intros d Hd out; subst out.
  { cbn. repeat split; [discriminate | done | constructor]. }
  destruct g; cbn [exec_]; try (apply IH; exact Hd).
  - unfold accept.
    destruct (String.eqb_spec (strip (email_input d)) "") as [He|He]; cbn [orb].
    + specialize (IH d Hd). cbv zeta in IH.
      destruct (exec_ gs d) as [[r d''] ev'] eqn:E. cbn [fst snd] in *.
      destruct IH as (IH1 & IH2 & IH3).
      split; [exact IH1|]. split; [exact IH2|]. by constructor.
    + destruct (String.eqb_spec (password_input d) "") as [Hp|Hp].
      * specialize (IH d Hd). cbv zeta in IH.
        destruct (exec_ gs d) as [[r d''] ev'] eqn:E. cbn [fst snd] in *.
        destruct IH as (IH1 & IH2 & IH3).
        split; [exact IH1|]. split; [exact IH2|]. by constructor.
      * cbn. repeat split; [|discriminate|constructor].
        intros _. eexists. split; [reflexivity|]. cbn.
        repeat split; auto. destruct (version_combo d); auto.
  - cbn. repeat split; [discriminate | done | constructor].
Qed.

Lemma exec_accepts_valid_data_only_witness :
  ∃ data,
    result_data (exec_ Session.signs_in LoginDialog_init).1.2 = Some data ∧
    email data = strip " reader@example.org " ∧ email data ≠ "" ∧
    password data ≠ "".
Proof.
  destruct (exec_accepts_valid_data_only Session.signs_in LoginDialog_init eq_refl)
    as (Hacc & _ & _).
  destruct (Hacc eq_refl) as (data & Hd & _ & He & Hne & _ & Hp & _).
  exists data. split; [exact Hd|]. split; [exact He|]. split; [exact Hne|exact Hp].
Defined.

(** ** Listings and sorting *)

Lemma strip_prefix_spec (p s r : string) :
  strip_prefix p s = Some r ↔ s = p +:+ r.
Proof.
  revert s. induction p as [|a p IH]; intros s; cbn.
  - split; [by intros [= ->] | by intros ->].
  - destruct s as [|c s]; [split; discriminate|].
    destruct (Ascii.eqb_spec a c) as [->|Hne].
    + rewrite IH. split; [by intros -> | by intros [= ->]].
    + split; [discriminate | intros [= ? _]; congruence].
Qed.

Lemma glob_spec (d pre suf k : string) (s : fsys) :
  k ∈ glob d pre suf s ↔
  (k ∈ dom (files s) ∨ k ∈ dirs s) ∧
  ∃ n, k = d +:+ "/" +:+ n ∧ n ≠ "" ∧ has_slash n = false ∧
       fnmatch pre suf n = true.
Proof.
  unfold glob. rewrite list_elem_of_filter, elem_of_elements, elem_of_union.
  unfold glob_match, child_name.
  split.
  - intros [Hm Hin]. split; [exact Hin|].
    destruct (strip_prefix (d +:+ "/") k) as [n|] eqn:Hn; cbn in Hm; [|done].
    apply strip_prefix_spec in Hn.
    destruct (String.eqb_spec n "") as [|Hne]; cbn in Hm; [done|].
    destruct (has_slash n) eqn:Hs; cbn in Hm; [done|].
    exists n. repeat split; auto.
    + rewrite Hn. clear. induction d as [|a d IH]; [reflexivity|].
      exact (f_equal (String a) IH).
    + by apply Is_true_true.
  - intros [Hin (n & -> & Hne & Hs & Hm)]. split; [|exact Hin].
    assert (strip_prefix (d +:+ "/") (d +:+ "/" +:+ n) = Some n) as ->.
    { apply strip_prefix_spec. clear. induction d as [|a d IH]; [reflexivity|].
      exact (f_equal (String a) IH). }
    cbn. apply String.eqb_neq in Hne. rewrite Hne, Hs. cbn. by apply Is_true_true.
Qed.

Lemma sorted_desc_nil (key : string → Z) (l : list string) :
  sorted_desc key l = [] → l = [].
Proof.
  destruct l as [|a l]; [done|]. unfold sorted_desc. cbn [foldr].
  destruct (foldr (insert_desc key) [] l) as [|y S]; cbn; [done|].
  by destruct (key y <=? key a).
Qed.

(** The first of the sorted list is an element of the list with the
    greatest key. *)
Lemma sorted_desc_head (key : string → Z) (l : list string) (e : string) :
  head (sorted_desc key l) = Some e →
  e ∈ l ∧ ∀ x, x ∈ l → key x ≤ key e.
Proof.
  revert e. induction l as [|a l IH]; intros e; [discriminate|].
  unfold sorted_desc in *. cbn [foldr].
  destruct (foldr (insert_desc key) [] l) as [|y S] eqn:HS.
  - apply sorted_desc_nil in HS as ->. cbn. intros [= <-].
    split; [left|]. intros x ->%list_elem_of_singleton. lia.
  - destruct (IH y eq_refl) as [Hy Hmax]. cbn [insert_desc].
    destruct (Z.leb_spec (key y) (key a)); cbn; intros [= <-].
    + split; [left|]. intros x [->|Hx]%elem_of_cons; [lia|].
      specialize (Hmax x Hx). lia.
    + split; [by right|]. intros x [->|Hx]%elem_of_cons; [lia|]. auto.
Qed.

(** ** The main window *)

(** A worker that fits its slot runs one of the three workflows, and [run]
    ends it with exactly one [finished]. *)
Lemma fitting_worker_notifies_once (env : Env) (t : WorkerThread) (r : receiver)
    (s : fsys) :
  fits t r = true →
  ∃ s' tr, run env t s = (Ret tt, s', tr) ∧ notifies_once (signals tr) = true.
Proof.
  intros Hfit. unfold run. apply run_handler. revert Hfit.
  destruct t as [ty a], r; unfold fits, dispatch; cbn [task_type args].
  all: destruct a as [|[] [|[] [|[] [|]]]]; try discriminate.
  all: intros ->%String.eqb_eq; cbn [String.eqb Ascii.eqb Bool.eqb].
  all: auto using login_well_notified, fulfill_well_notified, decrypt_well_notified.
Qed.

Lemma dialog_starts_nothing (gs : list gesture) (d : LoginDialog) :
  started (exec_ gs d).2 = [].
Proof.
  revert d. induction gs as [|g gs IH]; intros d; [reflexivity|].
  destruct g; cbn [exec_]; try apply IH; try reflexivity.
  unfold accept. destruct_match; cbn; [|reflexivity].
  specialize (IH d). destruct (exec_ gs d) as [[r d''] ev']. exact IH.
Qed.

Lemma started_app (e1 e2 : list ui_event) :
  started (e1 ++ e2) = started e1 ++ started e2.
Proof. apply omap_app. Qed.

Lemma show_login_dialog_starts_well (desk : Desktop) (w : MainWindow) :
  starts_well (show_login_dialog desk w).2 = true.
Proof.
  pose proof (dialog_starts_nothing (gestures desk) LoginDialog_init) as Hd.
  open_window w. run_W.
  destruct (exec_ (gestures desk) LoginDialog_init) as [[acc d] ev].
  cbn [snd] in Hd. run_W.
  repeat (destruct_match; run_W).
  all: unfold starts_well.
  all: change (LoginDialogShown :: ?l) with ([LoginDialogShown] ++ l).
  all: rewrite ?started_app, Hd; reflexivity.
Qed.

(** What [check_authorization] does when no key is found, after its three
    updates of the window. *)
Lemma check_authorization_starts_well (env : Env) (desk : Desktop) (fs : fsys)
    (w : MainWindow) :
  starts_well (check_authorization env desk fs w).2 = true.
Proof.
  pose proof (show_login_dialog_starts_well desk) as Hs.
  open_window w.
  unfold check_authorization. destruct (glob _ _ _ _) as [|k ks].
  - cbv beta iota zeta delta
      [mbind W_bind bind_W log status_setText process_setEnabled
       key_file status_label process_btn progress_bar progress_maximum
       log_text current_acsm_path worker].
    match goal with
    | |- context [show_login_dialog desk ?w'] =>
        specialize (Hs w'); destruct (show_login_dialog desk w') as [[[] w2] ev]
    end.
    exact Hs.
  - reflexivity.
Qed.

(** X16. Every handler of the main window starts at most one worker, with a
    task type and arguments its workflow takes and the slot that belongs
    to it; and the [run] of such a worker returns normally with exactly one
    [finished], so the slot is called once. *)
Theorem window_starts_fitting_workers (env : Env) (desk : Desktop) (fs : fsys)
    (w : MainWindow) :
  (∀ t r s, fits t r = true →
     ∃ s' tr, run env t s = (Ret tt, s', tr) ∧ notifies_once (signals tr) = true) ∧
  starts_well (process_file env desk w).2 = true ∧
  starts_well (show_login_dialog desk w).2 = true ∧
  starts_well (check_authorization env desk fs w).2 = true ∧
  (∀ ok msg, starts_well (on_authorization_complete env desk fs ok msg w).2 = true) ∧
  (∀ ok msg, starts_well (on_process_complete ok msg w).2 = true) ∧
  (∀ ok msg, starts_well (on_acsm_fulfilled env desk fs ok msg w).2 = true).
Proof.
  split; [intros t r s; apply fitting_worker_notifies_once|].
  split. { open_window w. run_W. repeat (destruct_match; run_W); reflexivity. }
  split; [apply show_login_dialog_starts_well|].
  split; [apply check_authorization_starts_well|].
  split.
  { intros [] msg; [|reflexivity].
    pose proof (check_authorization_starts_well env desk fs) as Hc.
    open_window w.
    unfold on_authorization_complete.
    cbv beta iota zeta delta
      [mbind W_bind bind_W log status_setText show
       key_file status_label process_btn progress_bar progress_maximum
       log_text current_acsm_path worker].
    match goal with
    | |- context [check_authorization env desk fs ?w'] =>
        specialize (Hc w');
        destruct (check_authorization env desk fs w') as [[[] w2] ev]
    end.
    cbn [snd fst app] in *. unfold starts_well in *.
    rewrite started_app. cbn [started omap list_omap]. by rewrite app_nil_r. }
  split. { intros [] msg; reflexivity. }
  intros ok msg. open_window w. run_W.
  repeat (destruct_match; run_W); reflexivity.
Qed.

(** X17. Without a key file, with the open dialog cancelled, or with a file
    whose suffix is neither ".acsm" nor ".epub" in any casing, "Process
    File" leaves the window as it was and starts no worker; without a key
    file it shows the warning that asks to authorize, and nothing else. *)
Theorem process_file_starts_nothing (env : Env) (desk : Desktop) (w : MainWindow) :
  key_file w = None ∨ getOpenFileName desk = "" ∨
  (lower (path_suffix (getOpenFileName desk)) ≠ ".acsm" ∧
   lower (path_suffix (getOpenFileName desk)) ≠ ".epub") →
  let out := process_file env desk w in
  out.1.2 = w ∧ started out.2 = [] ∧
  (key_file w = None →
   out.2 = [MessageBox warning "Error" "No key file found. Please authorize first."]).
Proof.
  intros H out. subst out. open_window w. run_W.
  destruct kf as [k|].
  - destruct H as [H|[H|[H1 H2]]]; [discriminate| |].
    + rewrite H. cbn. by repeat split.
    + apply String.eqb_neq in H1, H2. rewrite H1, H2.
      destruct (String.eqb _ ""); run_W; by repeat split.
  - by repeat split.
Qed.

Lemma process_file_starts_nothing_witness :
  (process_file (Faulty.usual Demo.epub) (Session.desk [] "/home/u/notes.txt" "")
                Session.authorized).1.2 = Session.authorized ∧
  started (process_file (Faulty.usual Demo.epub)
                        (Session.desk [] "/home/u/notes.txt" "")
                        Session.authorized).2 = [].
Proof.
  destruct (process_file_starts_nothing (Faulty.usual Demo.epub)
              (Session.desk [] "/home/u/notes.txt" "") Session.authorized)
    as (Hw & Hs & _).
  - right. right. split; intros H; vm_compute in H; discriminate H.
  - split; [exact Hw|exact Hs].
Defined.

(** X18. With a key file and a chosen file, the suffix decides, in any casing:
    ".acsm" starts a fulfillment of the file with the key (no save dialog
    is needed), ".epub" starts a decryption to the path answered by the
    save dialog; both disable the button and show the progress bar.  A
    cancelled save dialog leaves the window as it was. *)
Theorem process_file_by_extension (env : Env) (desk : Desktop) (w : MainWindow)
    (k : string) :
  key_file w = Some k →
  getOpenFileName desk ≠ "" →
  let p := getOpenFileName desk in
  let out := process_file env desk w in
  (lower (path_suffix p) = ".acsm" →
   started out.2 =
     [({| task_type := "fulfill"; args := [PStr (path_str env p); PStr k] |},
       to_acsm_fulfilled)] ∧
   process_btn out.1.2 = false ∧ progress_bar out.1.2 = true ∧
   current_acsm_path out.1.2 = Some p ∧
   log_text out.1.2 = log_text w ++ ["Processing ACSM: " +:+ path_name p]) ∧
  (lower (path_suffix p) = ".epub" →
   getSaveFileName desk (path_stem p +:+ "_decrypted.epub") ≠ "" →
   started out.2 =
     [({| task_type := "decrypt";
          args := [PStr (path_str env p); PStr k;
                   PStr (getSaveFileName desk (path_stem p +:+ "_decrypted.epub"))] |},
       to_process_complete)] ∧
   process_btn out.1.2 = false ∧ progress_bar out.1.2 = true) ∧
  (lower (path_suffix p) = ".epub" →
   getSaveFileName desk (path_stem p +:+ "_decrypted.epub") = "" →
   out.1.2 = w ∧ started out.2 = []).
Proof.
  intros Hk Hp p out. subst p out. open_window w. subst kf. run_W.
  apply String.eqb_neq in Hp. rewrite Hp.
  split; [|split].
  - intros ->. cbn [String.eqb Ascii.eqb Bool.eqb andb]. by repeat split.
  - intros -> Hs. cbn [String.eqb Ascii.eqb Bool.eqb andb].
    apply String.eqb_neq in Hs. rewrite Hs. by repeat split.
  - intros -> Hs. cbn [String.eqb Ascii.eqb Bool.eqb andb].
    rewrite Hs. by repeat split.
Qed.

Lemma process_file_by_extension_witness :
  started (process_file (Faulty.usual Demo.epub)
                        (Session.desk [] "/home/u/Downloads/Moby.ACSM" "")
                        Session.authorized).2 =
    [({| task_type := "fulfill";
         args := [PStr "/home/u/Downloads/Moby.ACSM";
                  PStr "/home/u/.deacsm/adobekey.der"] |}, to_acsm_fulfilled)].
Proof.
  destruct (process_file_by_extension (Faulty.usual Demo.epub)
              (Session.desk [] "/home/u/Downloads/Moby.ACSM" "")
              Session.authorized "/home/u/.deacsm/adobekey.der" eq_refl)
    as (Hacsm & _ & _).
  - discriminate.
  - destruct (Hacsm eq_refl) as (Hs & _). exact Hs.
Defined.

(** X19. The worker that [on_acsm_fulfilled] starts after a successful
    fulfillment decrypts, with the window's key and to the path of the save
    dialog, the ".epub" entry of the configuration directory with the
    latest modification time: the file is chosen by listing the directory,
    not from the message of the fulfillment. *)
Theorem newest_epub_is_decrypted (env : Env) (desk : Desktop) (fs : fsys)
    (w : MainWindow) (message : string) (t : WorkerThread) (r : receiver) :
  let out := on_acsm_fulfilled env desk fs true message w in
  (t, r) ∈ started out.2 →
  ∃ epub,
    t = {| task_type := "decrypt";
           args := [PStr epub; PStr (str_path (key_file w));
                    PStr (getSaveFileName desk epub)] |} ∧
    r = to_process_complete ∧
    getSaveFileName desk epub ≠ "" ∧
    epub ∈ glob (config_dir env) "" ".epub" fs ∧
    (∀ other, other ∈ glob (config_dir env) "" ".epub" fs →
              st_mtime desk other ≤ st_mtime desk epub).
Proof.
  intros out. subst out. open_window w. run_W.
  destruct (sorted_desc _ _) as [|e es] eqn:Hs; run_W.
  { intros []%elem_of_nil. }
  destruct (String.eqb_spec (getSaveFileName desk e) "") as [|Hne]; run_W.
  { intros []%elem_of_nil. }
  cbn. intros [= -> ->]%list_elem_of_singleton.
  exists e. repeat split; auto.
  all: eapply sorted_desc_head; by rewrite Hs.
Qed.

Lemma newest_epub_is_decrypted_witness :
  ∃ epub,
    epub ∈ glob "/home/u/.deacsm" "" ".epub" Session.shelf ∧
    ∀ other, other ∈ glob "/home/u/.deacsm" "" ".epub" Session.shelf →
             st_mtime (Session.desk [] "" "/home/u/Books/Moby.epub") other
             ≤ st_mtime (Session.desk [] "" "/home/u/Books/Moby.epub") epub.
Proof.
  destruct (newest_epub_is_decrypted (Faulty.usual Demo.epub)
              (Session.desk [] "" "/home/u/Books/Moby.epub") Session.shelf
              Session.authorized "Successfully fulfilled: Moby.epub"
              {| task_type := "decrypt";
                 args := [PStr "/home/u/.deacsm/Moby.epub";
                          PStr "/home/u/.deacsm/adobekey.der";
                          PStr "/home/u/Books/Moby.epub"] |}
              to_process_complete)
    as (epub & _ & _ & _ & Hin & Hmax).
  - vm_compute. apply list_elem_of_here.
  - exists epub. split; [exact Hin|exact Hmax].
Defined.

(** X20. A successful fulfillment is reported as an error when the
    configuration directory holds no ".epub" entry, as after a fulfilled
    PDF: the window logs the worker's message, then shows "Could not find
    fulfilled EPUB file", sets "Processing failed" and enables the
    button again. *)
Theorem success_without_epub (env : Env) (desk : Desktop) (fs : fsys)
    (w : MainWindow) (message : string) :
  glob (config_dir env) "" ".epub" fs = [] →
  let out := on_acsm_fulfilled env desk fs true message w in
  out.2 = [MessageBox critical "Error" "Could not find fulfilled EPUB file"] ∧
  status_label out.1.2 = "Processing failed" ∧
  process_btn out.1.2 = true ∧ progress_bar out.1.2 = false ∧
  log_text out.1.2 =
    log_text w ++ [message; "Error: Could not find fulfilled EPUB file"].
Proof.
  intros Hg out. subst out. open_window w. run_W. rewrite Hg.
  cbn [sorted_desc foldr]. repeat split. by rewrite <- app_assoc.
Qed.

Lemma success_without_epub_witness :
  let out := _fulfill_acsm (Demo.env Demo.reply Demo.pdf 200 true None)
                           "book.acsm" "/home/u/.deacsm/adobekey.der"
                           Demo.machine in
  last (signals out.2) = Some (Finished true "Successfully fulfilled: Moby.pdf") ∧
  (on_acsm_fulfilled (Demo.env Demo.reply Demo.pdf 200 true None)
                     (Session.desk [] "" "/home/u/Books/Moby.epub") out.1.2
                     true "Successfully fulfilled: Moby.pdf"
                     Session.authorized).2 =
    [MessageBox critical "Error" "Could not find fulfilled EPUB file"].
Proof.
  intros out. split; [vm_compute; reflexivity|].
  destruct (success_without_epub (Demo.env Demo.reply Demo.pdf 200 true None)
              (Session.desk [] "" "/home/u/Books/Moby.epub") out.1.2
              Session.authorized "Successfully fulfilled: Moby.pdf")
    as (Hev & _).
  - vm_compute. reflexivity.
  - exact Hev.
Defined.

(** X21. [authorize_adobe] disables "Process File" and a failed authorization
    does not enable it again, whether or not the window still holds a key
    file from before; the failure is shown in one critical box. *)
Theorem failed_authorization_keeps_process_disabled (env : Env) (desk : Desktop)
    (fs : fsys) (w : MainWindow) (email password message : string) (version : Z) :
  let w1 := (authorize_adobe email password version w).1.2 in
  let w2 := (on_authorization_complete env desk fs false message w1).1.2 in
  process_btn w2 = false ∧ key_file w2 = key_file w ∧
  status_label w2 = "Authorization failed" ∧
  (on_authorization_complete env desk fs false message w1).2 =
    [MessageBox critical "Error" message].
Proof. open_window w. by repeat split. Qed.

(** X22. When processing ends the window is usable again:
    [on_process_complete] hides the progress bar, enables the button, logs
    the message and shows it in one box, of the kind the outcome asks for;
    and every path of [on_acsm_fulfilled] that starts no worker hides the
    bar and enables the button too.  Neither touches the key file. *)
Theorem finished_processing_reenables (env : Env) (desk : Desktop) (fs : fsys)
    (w : MainWindow) (ok : bool) (message : string) :
  (let out := on_process_complete ok message w in
   process_btn out.1.2 = true ∧ progress_bar out.1.2 = false ∧
   key_file out.1.2 = key_file w ∧
   log_text out.1.2 = log_text w ++ [message] ∧
   out.2 = [MessageBox (if ok then information else critical)
                       (if ok then "Success" else "Error") message]) ∧
  (let out := on_acsm_fulfilled env desk fs ok message w in
   started out.2 = [] →
   process_btn out.1.2 = true ∧ progress_bar out.1.2 = false ∧
   key_file out.1.2 = key_file w).
Proof.
  open_window w. split.
  - destruct ok; by repeat split.
  - cbv zeta. run_W. repeat (destruct_match; run_W); by repeat split.
Qed.

Lemma show_login_dialog_frame (desk : Desktop) (w : MainWindow) :
  let out := show_login_dialog desk w in
  key_file out.1.2 = key_file w ∧
  (process_btn w = false → process_btn out.1.2 = false) ∧
  head out.2 = Some LoginDialogShown.
Proof.
  open_window w. run_W.
  destruct (exec_ (gestures desk) LoginDialog_init) as [[acc d] ev]. run_W.
  repeat (destruct_match; run_W); by repeat split.
Qed.

(** X23. Starting the window makes the configuration directory if it is missing
    and changes no file.  Afterwards "Process File" is enabled exactly when a
    key file is held; a held key file is an "adobekey*.der" entry of the
    configuration directory and then nothing is shown; with no such entry the
    login dialog is the first thing shown.  The start fails exactly when the
    path of the configuration directory is taken by a file that is not a
    directory, and then changes nothing.  The home directory is taken to
    exist. *)
Theorem window_at_startup (env : Env) (desk : Desktop) (s : fsys) :
  match MainWindow_init env desk s with
  | (Ret (w, ev), s') =>
      config_dir env ∈ dirs s' ∧ files s' = files s ∧ cwd s' = cwd s ∧
      (process_btn w = true ↔ is_Some (key_file w)) ∧
      (∀ k, key_file w = Some k →
            k ∈ glob (config_dir env) "adobekey" ".der" s' ∧ ev = [] ∧
            status_label w = ("Authorized: " +:+ path_name k)) ∧
      (key_file w = None →
       glob (config_dir env) "adobekey" ".der" s' = [] ∧
       head ev = Some LoginDialogShown) ∧
      (config_dir env ∈ dirs s ∨ config_dir env ∉ dom (files s))
  | (Raise e, s') =>
      s' = s ∧ (config_dir env ∉ dirs s) ∧ config_dir env ∈ dom (files s)
  end.
Proof.
  unfold MainWindow_init, mkdir_exist_ok.
  assert (∀ s', config_dir env ∈ dirs s' →
    match check_authorization env desk s' init_ui with
    | (_, w, ev) =>
      (process_btn w = true ↔ is_Some (key_file w)) ∧
      (∀ k, key_file w = Some k →
            k ∈ glob (config_dir env) "adobekey" ".der" s' ∧ ev = [] ∧
            status_label w = ("Authorized: " +:+ path_name k)) ∧
      (key_file w = None →
       glob (config_dir env) "adobekey" ".der" s' = [] ∧
       head ev = Some LoginDialogShown)
    end) as Hcheck.
  { intros s' _. unfold check_authorization, init_ui.
    destruct (glob (config_dir env) "adobekey" ".der" s') as [|k ks] eqn:Hg.
    - cbv beta iota zeta delta
        [mbind W_bind bind_W log status_setText process_setEnabled].
      match goal with
      | |- context [show_login_dialog desk ?w'] =>
          pose proof (show_login_dialog_frame desk w') as (Hk & Hp & Hh);
          destruct (show_login_dialog desk w') as [[[] w2] ev]
      end.
      cbn [fst snd key_file process_btn app] in *.
      rewrite Hk, (Hp eq_refl). repeat split; try done.
    - run_W. repeat split; try done; eauto.
      all: match goal with H : Some _ = Some _ |- _ => injection H as <- end.
      + left.
      + reflexivity. }
  destruct (decide (config_dir env ∈ dirs s)) as [Hin|Hnin].
  - cbv beta iota. specialize (Hcheck s Hin).
    destruct (check_authorization env desk s init_ui) as [[[] w] ev].
    destruct Hcheck as (Hc1 & Hc2 & Hc3). auto 10.
  - destruct (decide (config_dir env ∈ dom (files s))) as [Hf|Hnf].
    + by repeat split.
    + cbv beta iota.
      match goal with
      | |- context [check_authorization env desk ?s'] =>
          assert (config_dir env ∈ dirs s') as Hin by (cbn; set_solver);
          specialize (Hcheck s' Hin);
          destruct (check_authorization env desk s' init_ui) as [[[] w] ev]
      end.
      cbn [files cwd]. destruct Hcheck as (Hc1 & Hc2 & Hc3). auto 10.
Qed.

(** ** Authorization, from the worker to the window *)

Lemma apply_writes_elem (d p : string) (f : file) (wr : writes)
    (m : gmap string file) :
  (p, f) ∈ wr → is_Some (apply_writes d wr m !! resolve d p).
Proof.
  revert m. induction wr as [|[p' f'] wr IH]; intros m Hin.
  - by apply elem_of_nil in Hin.
  - apply elem_of_cons in Hin as [[= <- <-]|Hin].
    + change (is_Some (apply_writes d wr (<[resolve d p := f]> m) !! resolve d p)).
      apply apply_writes_is_Some. rewrite lookup_insert_eq. eauto.
    + exact (IH _ Hin).
Qed.

(** X24. From the worker to the window: after an authorization in which every
    collaborator agrees and the export writes "adobekey.der", the slot
    [on_authorization_complete], called with the worker's terminal
    notification, finds a key file in the configuration directory, enables
    "Process File" and shows the success box only: the login dialog does not
    come up again. *)
Theorem window_authorized_after_login (env : Env) (desk : Desktop)
    (email password : string) (version : Z) (s : fsys) (r1 r2 r3 : string)
    (wr0 wr1 wr2 wr3 wr4 wr5 wr6 : writes) (key : file) (w : MainWindow) :
  cwd s ∈ dirs s →
  config_dir env ∉ dom (files s) →
  update_account_path env (config_dir env) = (Ret tt, wr0) →
  createDeviceKeyFile env = (Ret tt, wr1) →
  createDeviceFile env true version = (Ret true, wr2) →
  createUser env version = (Ret (true, r1), wr3) →
  signIn env "AdobeID" email password = (Ret (true, r2), wr4) →
  activateDevice env version = (Ret (true, r3), wr5) →
  exportAccountEncryptionKeyDER env "adobekey.der" = (Ret tt, wr6) →
  ("adobekey.der", key) ∈ wr6 →
  ∃ s' tr msg,
    _login_adobe env email password version s = (Ret tt, s', tr) ∧
    last (signals tr) = Some (Finished true msg) ∧
    let out := on_authorization_complete env desk s' true msg w in
    process_btn out.1.2 = true ∧
    (∃ k, key_file out.1.2 = Some k ∧
          k ∈ glob (config_dir env) "adobekey" ".der" s') ∧
    out.2 = [MessageBox information "Success" msg].
Proof.
  intros Hcwd Hcfg H0 H1 H2 H3 H4 H5 H6 Hkey.
  destruct (login_run env email password version s r1 r2 r3
              wr0 wr1 wr2 wr3 wr4 wr5 wr6 Hcwd Hcfg H0 H1 H2 H3 H4 H5 H6)
    as (s' & tr & Hrun & Hsig & _ & _ & Hfiles).
  exists s', tr, ("Successfully authorized as " +:+ email).
  split; [exact Hrun|]. split; [by rewrite Hsig|].
  assert (config_dir env +:+ "/" +:+ "adobekey.der"
            ∈ glob (config_dir env) "adobekey" ".der" s') as Hglob.
  { apply glob_spec. split.
    - left. apply elem_of_dom. rewrite Hfiles.
      apply (apply_writes_elem _ "adobekey.der" key).
      rewrite !elem_of_app. auto 10.
    - exists "adobekey.der". by repeat split. }
  open_window w. run_W.
  destruct (glob (config_dir env) "adobekey" ".der" s') as [|k ks] eqn:Hg.
  { by apply elem_of_nil in Hglob. }
  run_W. repeat split. exists k. split; [reflexivity|left].
Qed.

Lemma window_authorized_after_login_witness :
  ∃ s' tr msg,
    _login_adobe (Faulty.usual Demo.epub) "reader@example.org" "secret" 2
                 Faulty.fresh_machine = (Ret tt, s', tr) ∧
    last (signals tr) = Some (Finished true msg) ∧
    process_btn (on_authorization_complete (Faulty.usual Demo.epub)
                   (Session.desk Session.signs_in "" "") s' true msg init_ui).1.2
      = true.
Proof.
  destruct (window_authorized_after_login (Faulty.usual Demo.epub)
              (Session.desk Session.signs_in "" "")
              "reader@example.org" "secret" 2
              Faulty.fresh_machine "" "" ""
              [] [("devicesalt", File (b "salt") None)]
              [("device.xml", File (b "<d/>") None)] [] []
              [("activation.xml", File (b "<a/>") None)]
              [("adobekey.der", File (b "key") None)]
              (File (b "key") None) init_ui)
    as (s' & tr & msg & Hrun & Hlast & Hbtn & _).
  - cbn. set_solver.
  - cbn. set_solver.
  - reflexivity.
  - reflexivity.
  - reflexivity.
  - reflexivity.
  - reflexivity.
  - reflexivity.
  - reflexivity.
  - apply list_elem_of_here.
  - exists s', tr, msg. split; [exact Hrun|]. split; [exact Hlast|exact Hbtn].
Defined.
